(** * BDM_Server.h: delivery channels, sessions and the client registry

    A shallow embedding of [cppForSwig/BDM_Server.h].  Classes become
    modules, member variables become record fields with the names the header
    gives them, member functions become functions on the record.  A mutex is
    a boolean ([true] when some thread owns it); a blocking call that cannot
    proceed is reported instead of being waited for, and the interleaving of
    several threads is a step relation further down. *)

From Stdlib Require Import ZArith Lia.
From stdpp Require Import gmap strings list fin_maps.

(** ** Constants and enumerations *)

Definition MAX_CONTENT_LENGTH : Z := 1024 * 1024 * 1024.
Definition CALLBACK_EXPIRE_COUNT : Z := 5.

(** [unsigned] is a 32-bit type on every target of the project; arithmetic
    on it wraps. *)
Definition unsigned_modulus : Z := 2 ^ 32.
Definition wrap_unsigned (z : Z) : Z := z mod unsigned_modulus.

Inductive WalletType : Type :=
| TypeWallet
| TypeLockbox.

(** Whether a call that may block has come back. *)
Inductive completion : Type :=
| Returned
| Blocked.

(** ** TimedStack *)

Module TimedStack.

(** Modelled from the spec: [TimedStack] is declared in ThreadSafeClasses.h,
    which is not part of the sources at hand.  It is the unbounded,
    time-ordered queue of pending notifications, terminable so that waiters
    unblock. *)
Record t (T : Type) : Type := Build {
  data : list T;
  terminated : bool
}.
Arguments Build {T} _ _.
Arguments data {T} _.
Arguments terminated {T} _.

Definition empty {T : Type} : t T := Build [] false.

Definition push_back {T : Type} (x : T) (s : t T) : t T :=
  Build (data s ++ [x]) (terminated s).

Definition terminate {T : Type} (s : t T) : t T :=
  Build (data s) true.

Inductive popped (T : Type) : Type :=
| Terminated
| Empty
| Batch (l : list T).
Arguments Terminated {T}.
Arguments Empty {T}.
Arguments Batch {T} _.

(** Modelled from the spec: what a waiter finds when it looks at the queue;
    a terminated queue fails fast, otherwise everything queued is taken at
    once, in order. *)
Definition pop_all {T : Type} (s : t T) : popped T * t T :=
  if terminated s then (Terminated, s)
  else match data s with
       | [] => (Empty, s)
       | _ :: _ => (Batch (data s), Build [] false)
       end.

End TimedStack.

(** ** LongPoll *)

Module LongPoll.

Record t (M : Type) : Type := Build {
  mu_ : bool;
  count_ : Z;
  notificationStack_ : TimedStack.t M;
  isReady_ : unit -> Z
}.
Arguments Build {M} _ _ _ _.
Arguments mu_ {M} _.
Arguments count_ {M} _.
Arguments notificationStack_ {M} _.
Arguments isReady_ {M} _.

Definition set_mu {M : Type} (b : bool) (lp : t M) : t M :=
  Build b (count_ lp) (notificationStack_ lp) (isReady_ lp).

Definition set_count {M : Type} (c : Z) (lp : t M) : t M :=
  Build (mu_ lp) c (notificationStack_ lp) (isReady_ lp).

Definition set_stack {M : Type} (s : TimedStack.t M) (lp : t M) : t M :=
  Build (mu_ lp) (count_ lp) s (isReady_ lp).

(** [LongPoll(function<unsigned(void)> isReady)] *)
Definition new {M : Type} (isReady : unit -> Z) : t M :=
  set_count 0 (Build false 0 TimedStack.empty isReady).

(** [std::mutex]: [try_lock] never waits, [lock] waits ([None] here) while
    another thread owns the mutex. *)
Definition try_lock {M : Type} (lp : t M) : bool * t M :=
  if mu_ lp then (false, lp) else (true, set_mu true lp).

Definition lock {M : Type} (lp : t M) : option (t M) :=
  if mu_ lp then None else Some (set_mu true lp).

Definition unlock {M : Type} (lp : t M) : t M := set_mu false lp.

(** [count_.fetch_add(d)]: returns the old value. *)
Definition fetch_add {M : Type} (d : Z) (lp : t M) : Z * t M :=
  (count_ lp, set_count (wrap_unsigned (count_ lp + d)) lp).

(** [notificationStack_.terminate()], the first statement of [shutdown]. *)
Definition signal_terminate {M : Type} (lp : t M) : t M :=
  set_stack (TimedStack.terminate (notificationStack_ lp)) lp.

Definition shutdown {M : Type} (lp : t M) : completion * t M :=
  let lp1 := signal_terminate lp in
  match lock lp1 with
  | Some lp2 => (Returned, unlock lp2)
  | None => (Blocked, lp1)
  end.

(** [~LongPoll] *)
Definition destroy {M : Type} (lp : t M) : completion * t M := shutdown lp.

Definition resetCounter {M : Type} (lp : t M) : t M := set_count 0 lp.

Definition isValid {M : Type} (lp : t M) : bool * t M :=
  let '(owns, lp1) := try_lock lp in
  if owns then
    let '(old, lp2) := fetch_add 1 lp1 in
    let count := wrap_unsigned (old + 1) in
    if (CALLBACK_EXPIRE_COUNT <=? count)%Z then (false, unlock lp2)
    else (true, unlock lp2)
  else (true, lp1).

Definition callback {M : Type} (command : M) (lp : t M) : t M :=
  set_stack (TimedStack.push_back command (notificationStack_ lp)) lp.

(** What a poll hands back to the client. *)
Inductive response (M : Type) : Type :=
| Notifications (batch : list M)
| NoData
| TerminatedResponse.
Arguments Notifications {M} _.
Arguments NoData {M}.
Arguments TerminatedResponse {M}.

(** Modelled from the spec: the body of [LongPoll::respond] is not in the
    header.  This is the part of a poll that runs while the responder owns
    [mu_]: it waits until the queue is terminated, or holds data, or the
    session reports not ready ([isReady_] yields 0), or the bounded wait has
    [elapsed]; [None] means it is still waiting.  Every completed response
    resets the expiry counter. *)
Definition respond_wake {M : Type} (elapsed : bool) (lp : t M)
  : option (response M * t M) :=
  match TimedStack.pop_all (notificationStack_ lp) with
  | (TimedStack.Terminated, _) =>
      Some (TerminatedResponse, resetCounter lp)
  | (TimedStack.Batch orderVec, s) =>
      Some (Notifications orderVec, resetCounter (set_stack s lp))
  | (TimedStack.Empty, _) =>
      if (isReady_ lp tt =? 0)%Z || elapsed
      then Some (NoData, resetCounter lp)
      else None
  end.

(** Modelled from the spec: a whole poll, from taking [mu_] to releasing it.
    [None] when the call does not come back in the state it is started in. *)
Definition respond {M : Type} (elapsed : bool) (lp : t M)
  : option (response M * t M) :=
  match lock lp with
  | None => None
  | Some lp1 =>
      match respond_wake elapsed lp1 with
      | None => None
      | Some (r, lp2) => Some (r, unlock lp2)
      end
  end.

(** Modelled from the spec: [shutdown] as it goes when a poll is in
    progress, the body of [respond] being absent from the header.  The
    poller that owns [mu_] is woken by the termination of the queue, answers
    and gives [mu_] back; [shutdown] then takes the mutex and returns.  It
    stays [Blocked] only if the poller is not woken. *)
Definition shutdown_awaited {M : Type} (lp : t M) : completion * t M :=
  match shutdown lp with
  | (Returned, lp1) => (Returned, lp1)
  | (Blocked, lp1) =>
      match respond_wake false lp1 with
      | Some (_, lp2) =>
          match lock (unlock lp2) with
          | Some lp3 => (Returned, unlock lp3)
          | None => (Blocked, unlock lp2)
          end
      | None => (Blocked, lp1)
      end
  end.

(** Calls made one after the other on one channel.  Nothing can arrive
    while a poll made this way waits, so its bounded wait elapses. *)
Inductive call (M : Type) : Type :=
| CallCallback (command : M)
| CallIsValid
| CallResetCounter
| CallShutdown
| CallRespond.
Arguments CallCallback {M} _.
Arguments CallIsValid {M}.
Arguments CallResetCounter {M}.
Arguments CallShutdown {M}.
Arguments CallRespond {M}.

Definition exec {M : Type} (lp : t M) (c : call M) : t M :=
  match c with
  | CallCallback command => callback command lp
  | CallIsValid => snd (isValid lp)
  | CallResetCounter => resetCounter lp
  | CallShutdown => snd (shutdown lp)
  | CallRespond =>
      match respond true lp with
      | Some (_, lp') => lp'
      | None => lp
      end
  end.

Definition run {M : Type} (calls : list (call M)) (lp : t M) : t M :=
  foldl exec lp calls.

(** A call that neither resets the expiry counter nor is a poll. *)
Definition keeps_counter {M : Type} (c : call M) : Prop :=
  match c with
  | CallResetCounter | CallRespond => False
  | _ => True
  end.

(** A call whose body the header gives. *)
Definition in_header {M : Type} (c : call M) : Prop :=
  match c with
  | CallRespond => False
  | _ => True
  end.

(** The number of liveness checks among [calls]. *)
Fixpoint count_checks {M : Type} (calls : list (call M)) : nat :=
  match calls with
  | [] => 0
  | CallIsValid :: rest => S (count_checks rest)
  | _ :: rest => count_checks rest
  end.

End LongPoll.

(** ** WS_Callback *)

Module WS_Callback.

Record t : Type := Build {
  bdvID_ : Z
}.

Definition isValid (ws : t) : bool * t := (true, ws).

Definition shutdown (ws : t) : completion * t := (Returned, ws).

End WS_Callback.

(** ** Callback: the two delivery channels behind one interface *)

Module Callback.

Inductive t (M : Type) : Type :=
| OfLongPoll (lp : LongPoll.t M)
| OfWS (ws : WS_Callback.t).
Arguments OfLongPoll {M} _.
Arguments OfWS {M} _.

Definition isValid {M : Type} (cb : t M) : bool * t M :=
  match cb with
  | OfLongPoll lp => let '(b, lp') := LongPoll.isValid lp in (b, OfLongPoll lp')
  | OfWS ws => let '(b, ws') := WS_Callback.isValid ws in (b, OfWS ws')
  end.

Definition shutdown {M : Type} (cb : t M) : completion * t M :=
  match cb with
  | OfLongPoll lp => let '(c, lp') := LongPoll.shutdown lp in (c, OfLongPoll lp')
  | OfWS ws => let '(c, ws') := WS_Callback.shutdown ws in (c, OfWS ws')
  end.

(** [shutdown] with the wait for a poll in progress played out. *)
Definition shutdown_awaited {M : Type} (cb : t M) : completion * t M :=
  match cb with
  | OfLongPoll lp =>
      let '(c, lp') := LongPoll.shutdown_awaited lp in (c, OfLongPoll lp')
  | OfWS ws => let '(c, ws') := WS_Callback.shutdown ws in (c, OfWS ws')
  end.

(** Modelled from the spec: [WS_Callback::callback] is only declared in the
    header; it hands the message to the open connection and keeps nothing of
    it. *)
Definition callback {M : Type} (command : M) (cb : t M) : t M :=
  match cb with
  | OfLongPoll lp => OfLongPoll (LongPoll.callback command lp)
  | OfWS ws => OfWS ws
  end.

(** [dynamic_cast<LongPoll*>(p)]: null for a null pointer and for any other
    class. *)
Definition dynamic_cast_LongPoll {M : Type} (p : option (t M))
  : option (LongPoll.t M) :=
  match p with
  | Some (OfLongPoll lp) => Some lp
  | _ => None
  end.

End Callback.

(** ** BlockingStack *)

Module BlockingStack.

(** Modelled from the spec: [BlockingStack] is declared in
    ThreadSafeClasses.h, which is not part of the sources at hand.  A FIFO
    queue, blocking on empty, terminable to unblock its waiters. *)
Record t (T : Type) : Type := Build {
  data : list T;
  terminated : bool
}.
Arguments Build {T} _ _.
Arguments data {T} _.
Arguments terminated {T} _.

Definition empty {T : Type} : t T := Build [] false.

Definition push_back {T : Type} (x : T) (s : t T) : t T :=
  Build (data s ++ [x]) (terminated s).

Definition terminate {T : Type} (s : t T) : t T :=
  Build (data s) true.

(** What a thread that pops finds: the queue terminated, nothing yet (it
    would wait), or the oldest item. *)
Inductive popped (T : Type) : Type :=
| Terminated
| Empty
| Item (x : T).
Arguments Terminated {T}.
Arguments Empty {T}.
Arguments Item {T} _.

Definition pop_front {T : Type} (s : t T) : popped T * t T :=
  if terminated s then (Terminated, s)
  else match data s with
       | [] => (Empty, s)
       | x :: rest => (Item x, Build rest false)
       end.

End BlockingStack.

(** ** BDV_Server_Object *)

Module BDV_Server_Object.

Inductive thread : Type :=
| NotStarted
| Running
| Joined.

Record walletRegStruct (C : Type) : Type := BuildReg {
  command_ : C;
  type_ : WalletType
}.
Arguments BuildReg {C} _ _.
Arguments command_ {C} _.
Arguments type_ {C} _.

(** [C] stands for [Codec_BDVCommand::BDVCommand], [M] for what the channel
    carries.  [isReady] is whether [isReadyPromise_] has been fulfilled.
    [wallets] is the resolved watch-set; the class inherits it from
    [BlockDataViewer], which is not part of the sources at hand, and it is
    taken from the spec as a map from entity ID to the registration that was
    resolved.  The members that only point at the chain engine ([bdmT_],
    [delegateMap_], [notifLambda_]) play no part here. *)
Record t (C M : Type) : Type := Build {
  initT_ : thread;
  cb_ : option (Callback.t M);
  bdvID_ : string;
  wltRegMap_ : gmap string (walletRegStruct C);
  isReady : bool;
  wallets : gmap string (walletRegStruct C)
}.
Arguments Build {C M} _ _ _ _ _ _.
Arguments initT_ {C M} _.
Arguments cb_ {C M} _.
Arguments bdvID_ {C M} _.
Arguments wltRegMap_ {C M} _.
Arguments isReady {C M} _.
Arguments wallets {C M} _.

Definition set_initT {C M : Type} (th : thread) (s : t C M) : t C M :=
  Build th (cb_ s) (bdvID_ s) (wltRegMap_ s) (isReady s) (wallets s).

Definition set_cb {C M : Type} (cb : option (Callback.t M)) (s : t C M) : t C M :=
  Build (initT_ s) cb (bdvID_ s) (wltRegMap_ s) (isReady s) (wallets s).

Definition set_wltRegMap {C M : Type} (m : gmap string (walletRegStruct C))
  (s : t C M) : t C M :=
  Build (initT_ s) (cb_ s) (bdvID_ s) m (isReady s) (wallets s).

Definition set_isReady {C M : Type} (b : bool) (s : t C M) : t C M :=
  Build (initT_ s) (cb_ s) (bdvID_ s) (wltRegMap_ s) b (wallets s).

Definition set_wallets {C M : Type} (m : gmap string (walletRegStruct C))
  (s : t C M) : t C M :=
  Build (initT_ s) (cb_ s) (bdvID_ s) (wltRegMap_ s) (isReady s) m.

(** Modelled from the spec: the constructor's body is not in the header.  A
    session is born not ready, with nothing buffered and nothing watched,
    and owns the one channel it is given. *)
Definition new {C M : Type} (id : string) (cb : Callback.t M) : t C M :=
  Build NotStarted (Some cb) id ∅ false ∅.

(** Dereferencing a pointer; [None] is the fault of going through null. *)
Definition deref {A : Type} (p : option A) : option A := p.

Definition resetCounter {C M : Type} (s : t C M) : option (t C M) :=
  let longpoll := Callback.dynamic_cast_LongPoll (cb_ s) in
  if bool_decide (longpoll ≠ None) then
    match deref longpoll with
    | Some lp =>
        Some (set_cb (Some (Callback.OfLongPoll (LongPoll.resetCounter lp))) s)
    | None => None
    end
  else Some s.

(** Modelled from the spec: the bodies of [registerWallet] and
    [registerLockbox] are not in the header.  Before activation the
    registration is buffered in [wltRegMap_] under its entity ID (this runs
    under [registerWalletMutex_]); afterwards it is applied at once. *)
Definition registerEntity {C M : Type} (ty : WalletType) (id : string)
  (command : C) (s : t C M) : t C M :=
  if isReady s
  then set_wallets (<[id := BuildReg command ty]> (wallets s)) s
  else set_wltRegMap (<[id := BuildReg command ty]> (wltRegMap_ s)) s.

Definition registerWallet {C M : Type} := @registerEntity C M TypeWallet.
Definition registerLockbox {C M : Type} := @registerEntity C M TypeLockbox.

(** Modelled from the spec: the body of [populateWallets] is not in the
    header.  Every buffered registration becomes a watch. *)
Definition populateWallets {C M : Type} (m : gmap string (walletRegStruct C))
  (s : t C M) : t C M :=
  set_wallets (m ∪ wallets s) s.

(** Modelled from the spec: the body of [init] (the spec's [activate]) is
    not in the header.  It drains the buffer into the watch-set, fulfils the
    readiness promise and starts the session's worker; fulfilling the
    promise a second time is a fault ([None]). *)
Definition init {C M : Type} (s : t C M) : option (t C M) :=
  if isReady s then None
  else
    let s1 := populateWallets (wltRegMap_ s) s in
    let s2 := set_wltRegMap ∅ s1 in
    Some (set_initT Running (set_isReady true s2)).

(** Modelled from the spec: the body of [processNotification] is not in the
    header.  A notification relevant to the resolved watch-set goes through
    the channel, any other is dropped; the boolean tells which. *)
Definition processNotification {C M : Type}
  (relevant : M -> gmap string (walletRegStruct C) -> bool)
  (notif : M) (s : t C M) : t C M * bool :=
  if relevant notif (wallets s) then
    match cb_ s with
    | Some cb => (set_cb (Some (Callback.callback notif cb)) s, true)
    | None => (s, false)
    end
  else (s, false).

(** Modelled from the spec: the body of [haltThreads] is not in the header.
    The worker is joined first, then the channel is shut down; a poll that
    is in progress on the channel is woken and waited for. *)
Definition haltThreads {C M : Type} (s : t C M) : completion * t C M :=
  let s1 := match initT_ s with
            | Running => set_initT Joined s
            | _ => s
            end in
  match cb_ s1 with
  | Some cb =>
      let '(c, cb') := Callback.shutdown_awaited cb in (c, set_cb (Some cb') s1)
  | None => (Returned, s1)
  end.

(** A registration as a client submits it: kind, entity ID, command. *)
Definition registration (C : Type) : Type := WalletType * string * C.

Definition entry {C : Type} (r : registration C) : walletRegStruct C :=
  BuildReg (snd r) (fst (fst r)).

Definition register_all {C M : Type} (regs : list (registration C))
  (s : t C M) : t C M :=
  foldl (fun s' r => registerEntity (fst (fst r)) (snd (fst r)) (snd r) s') s regs.

(** The last registration of [regs] made under the entity ID [id]. *)
Definition latest {C : Type} (id : string) (regs : list (registration C))
  : option (registration C) :=
  last (filter (fun r => snd (fst r) = id) regs).

End BDV_Server_Object.

(** ** Clients *)

Module Clients.

(** [BDV_Notification_Packet]: a notification addressed to one session. *)
Record packet (N : Type) : Type := BuildPacket {
  bdvID : string;
  notifPtr_ : N
}.
Arguments BuildPacket {N} _ _.
Arguments bdvID {N} _.
Arguments notifPtr_ {N} _.

(** The loops run by the threads of [controlThreads_]. *)
Inductive loop : Type :=
| GarbageCollectorThread
| BdvMaintenanceLoop
| BdvMaintenanceThread.

(** Where a thread stands in its loop: at the head, about to test the run
    flag; inside the pop of its queue, waiting for an item or for the
    termination of the queue; or past the loop. *)
Inductive position : Type :=
| AtLoopHead
| InPop
| Finished.

Record thread : Type := BuildThread {
  body : loop;
  stands : position
}.

(** [shutdownCallback_runs] counts the calls made to [shutdownCallback_].
    The last three fields are history, kept for the statements only: the
    notifications [accepted] by dispatch, in order; the notifications
    [delivered] to a channel, with the ID of the session; the sessions
    [destroyed] so far, as they were left. *)
Record t (C N : Type) : Type := Build {
  BDVs_ : gmap string (BDV_Server_Object.t C N);
  gcCommands_ : BlockingStack.t bool;
  shutdownCallback_runs : nat;
  run_ : bool;
  controlThreads_ : list thread;
  outerBDVNotifStack_ : BlockingStack.t N;
  innerBDVNotifStack_ : BlockingStack.t (packet N);
  accepted : list N;
  delivered : list (string * N);
  destroyed : list (BDV_Server_Object.t C N)
}.
Arguments Build {C N} _ _ _ _ _ _ _ _ _ _.
Arguments BDVs_ {C N} _.
Arguments gcCommands_ {C N} _.
Arguments shutdownCallback_runs {C N} _.
Arguments run_ {C N} _.
Arguments controlThreads_ {C N} _.
Arguments outerBDVNotifStack_ {C N} _.
Arguments innerBDVNotifStack_ {C N} _.
Arguments accepted {C N} _.
Arguments delivered {C N} _.
Arguments destroyed {C N} _.

Definition set_BDVs {C N : Type} (m : gmap string (BDV_Server_Object.t C N)) (st : t C N) : t C N :=
  Build m (gcCommands_ st) (shutdownCallback_runs st) (run_ st)
    (controlThreads_ st) (outerBDVNotifStack_ st) (innerBDVNotifStack_ st)
    (accepted st) (delivered st) (destroyed st).

Definition set_gcCommands {C N : Type} (q : BlockingStack.t bool) (st : t C N) : t C N :=
  Build (BDVs_ st) q (shutdownCallback_runs st) (run_ st)
    (controlThreads_ st) (outerBDVNotifStack_ st) (innerBDVNotifStack_ st)
    (accepted st) (delivered st) (destroyed st).

Definition set_shutdownCallback_runs {C N : Type} (k : nat) (st : t C N) : t C N :=
  Build (BDVs_ st) (gcCommands_ st) k (run_ st) (controlThreads_ st)
    (outerBDVNotifStack_ st) (innerBDVNotifStack_ st) (accepted st)
    (delivered st) (destroyed st).

Definition set_run {C N : Type} (b : bool) (st : t C N) : t C N :=
  Build (BDVs_ st) (gcCommands_ st) (shutdownCallback_runs st) b
    (controlThreads_ st) (outerBDVNotifStack_ st) (innerBDVNotifStack_ st)
    (accepted st) (delivered st) (destroyed st).

Definition set_controlThreads {C N : Type} (ths : list thread) (st : t C N) : t C N :=
  Build (BDVs_ st) (gcCommands_ st) (shutdownCallback_runs st) (run_ st) ths
    (outerBDVNotifStack_ st) (innerBDVNotifStack_ st) (accepted st)
    (delivered st) (destroyed st).

Definition set_outer {C N : Type} (q : BlockingStack.t N) (st : t C N) : t C N :=
  Build (BDVs_ st) (gcCommands_ st) (shutdownCallback_runs st) (run_ st)
    (controlThreads_ st) q (innerBDVNotifStack_ st) (accepted st)
    (delivered st) (destroyed st).

Definition set_inner {C N : Type} (q : BlockingStack.t (packet N)) (st : t C N) : t C N :=
  Build (BDVs_ st) (gcCommands_ st) (shutdownCallback_runs st) (run_ st)
    (controlThreads_ st) (outerBDVNotifStack_ st) q (accepted st)
    (delivered st) (destroyed st).

Definition set_accepted {C N : Type} (l : list N) (st : t C N) : t C N :=
  Build (BDVs_ st) (gcCommands_ st) (shutdownCallback_runs st) (run_ st)
    (controlThreads_ st) (outerBDVNotifStack_ st) (innerBDVNotifStack_ st) l
    (delivered st) (destroyed st).

Definition set_delivered {C N : Type} (l : list (string * N)) (st : t C N) : t C N :=
  Build (BDVs_ st) (gcCommands_ st) (shutdownCallback_runs st) (run_ st)
    (controlThreads_ st) (outerBDVNotifStack_ st) (innerBDVNotifStack_ st)
    (accepted st) l (destroyed st).

Definition set_destroyed {C N : Type} (l : list (BDV_Server_Object.t C N)) (st : t C N) : t C N :=
  Build (BDVs_ st) (gcCommands_ st) (shutdownCallback_runs st) (run_ st)
    (controlThreads_ st) (outerBDVNotifStack_ st) (innerBDVNotifStack_ st)
    (accepted st) (delivered st) l.

(** Modelled from the spec: the body of [Clients::init] is not in the
    header.  An empty registry with its three loops running. *)
Definition new {C N : Type} : t C N :=
  Build ∅ BlockingStack.empty 0 true
    [BuildThread GarbageCollectorThread AtLoopHead;
     BuildThread BdvMaintenanceLoop AtLoopHead;
     BuildThread BdvMaintenanceThread AtLoopHead]
    BlockingStack.empty BlockingStack.empty [] [] [].

Inductive error : Type :=
| DuplicateSession
| UnknownSession
| UnknownEntity
| UnsupportedCommand
| ChannelTerminated
| ActivationMisuse.

(** Modelled from the spec: the body of [get] is not in the header. *)
Definition get {C N : Type} (id : string) (st : t C N)
  : option (BDV_Server_Object.t C N) :=
  BDVs_ st !! id.

(** Modelled from the spec: the body of [registerBDV] is not in the header.
    An ID already in [BDVs_] is refused; otherwise a session is constructed
    around the channel of the transport in use and inserted. *)
Definition registerBDV {C N : Type} (cb : Callback.t N) (bdvID : string)
  (st : t C N) : (error + BDV_Server_Object.t C N) * t C N :=
  match BDVs_ st !! bdvID with
  | Some _ => (inl DuplicateSession, st)
  | None =>
      let bdv := BDV_Server_Object.new bdvID cb in
      (inr bdv, set_BDVs (<[bdvID := bdv]> (BDVs_ st)) st)
  end.

(** Modelled from the spec: the body of [unregisterBDV] is not in the
    header.  The session leaves the map, then is torn down; when the
    teardown has to wait the session is out of the map but not yet
    destroyed. *)
Definition unregisterBDV {C N : Type} (bdvId : string) (st : t C N)
  : completion * t C N :=
  match BDVs_ st !! bdvId with
  | None => (Returned, st)
  | Some bdv =>
      let st1 := set_BDVs (delete bdvId (BDVs_ st)) st in
      match BDV_Server_Object.haltThreads bdv with
      | (Returned, bdv') => (Returned, set_destroyed (destroyed st1 ++ [bdv']) st1)
      | (Blocked, _) => (Blocked, st1)
      end
  end.

(** Modelled from the spec: dispatch, the push onto
    [outerBDVNotifStack_]. *)
Definition dispatch {C N : Type} (notif : N) (st : t C N) : t C N :=
  set_accepted (accepted st ++ [notif])
    (set_outer (BlockingStack.push_back notif (outerBDVNotifStack_ st)) st).

(** What one turn of a loop leads to. *)
Inductive turn : Type :=
| Exit
| Again
| Wait.

(** The packets one notification fans out to: one for each session of the
    snapshot it is relevant to. *)
Definition packets_for {C N : Type}
  (relevant : N -> gmap string (BDV_Server_Object.walletRegStruct C) -> bool)
  (notif : N) (bdvs : gmap string (BDV_Server_Object.t C N)) : list (packet N) :=
  (fun e => BuildPacket (fst e) notif) <$>
    filter (fun e => relevant notif (BDV_Server_Object.wallets (snd e)) = true)
      (map_to_list bdvs).

(** Modelled from the spec: the pop of [bdvMaintenanceLoop], the fan-out
    loop, and what follows it; the body of the loop is not in the header. *)
Definition bdvMaintenanceLoop_pop {C N : Type}
  (relevant : N -> gmap string (BDV_Server_Object.walletRegStruct C) -> bool)
  (st : t C N) : turn * t C N :=
  match BlockingStack.pop_front (outerBDVNotifStack_ st) with
  | (BlockingStack.Terminated, _) => (Exit, st)
  | (BlockingStack.Empty, _) => (Wait, st)
  | (BlockingStack.Item notif, q) =>
      let st1 := set_outer q st in
      let inner :=
        foldl (fun q' p => BlockingStack.push_back p q')
          (innerBDVNotifStack_ st1)
          (packets_for relevant notif (BDVs_ st1)) in
      (Again, set_inner inner st1)
  end.

(** Modelled from the spec: one turn of [bdvMaintenanceLoop] from the head
    of the loop, where the run flag is tested. *)
Definition bdvMaintenanceLoop_turn {C N : Type}
  (relevant : N -> gmap string (BDV_Server_Object.walletRegStruct C) -> bool)
  (st : t C N) : turn * t C N :=
  if negb (run_ st) then (Exit, st)
  else bdvMaintenanceLoop_pop relevant st.

(** Modelled from the spec: the pop of [bdvMaintenanceThread], the
    delivery loop, and what follows it; the body of the loop is not in the
    header. *)
Definition bdvMaintenanceThread_pop {C N : Type}
  (relevant : N -> gmap string (BDV_Server_Object.walletRegStruct C) -> bool)
  (st : t C N) : turn * t C N :=
  match BlockingStack.pop_front (innerBDVNotifStack_ st) with
  | (BlockingStack.Terminated, _) => (Exit, st)
  | (BlockingStack.Empty, _) => (Wait, st)
  | (BlockingStack.Item p, q) =>
      let st1 := set_inner q st in
      match BDVs_ st1 !! bdvID p with
      | None => (Again, st1)
      | Some bdv =>
          let '(bdv', sent) :=
            BDV_Server_Object.processNotification relevant (notifPtr_ p) bdv in
          let st2 := set_BDVs (<[bdvID p := bdv']> (BDVs_ st1)) st1 in
          (Again,
           if sent
           then set_delivered (delivered st2 ++ [(bdvID p, notifPtr_ p)]) st2
           else st2)
      end
  end.

(** Modelled from the spec: one turn of [bdvMaintenanceThread] from the
    head of the loop, where the run flag is tested. *)
Definition bdvMaintenanceThread_turn {C N : Type}
  (relevant : N -> gmap string (BDV_Server_Object.walletRegStruct C) -> bool)
  (st : t C N) : turn * t C N :=
  if negb (run_ st) then (Exit, st)
  else bdvMaintenanceThread_pop relevant st.

(** The liveness check of one session of the snapshot, and its removal when
    the channel reports dead. *)
Definition collect {C N : Type} (st : t C N)
  (e : string * BDV_Server_Object.t C N) : t C N :=
  match BDVs_ st !! fst e with
  | None => st
  | Some bdv =>
      match BDV_Server_Object.cb_ bdv with
      | None => st
      | Some cb =>
          let '(valid, cb') := Callback.isValid cb in
          let st1 :=
            set_BDVs (<[fst e := BDV_Server_Object.set_cb (Some cb') bdv]> (BDVs_ st)) st in
          if valid then st1 else snd (unregisterBDV (fst e) st1)
      end
  end.

(** Modelled from the spec: the pop of [garbageCollectorThread] and what
    follows it; the body of the loop is not in the header. *)
Definition garbageCollectorThread_pop {C N : Type} (st : t C N) : turn * t C N :=
  match BlockingStack.pop_front (gcCommands_ st) with
  | (BlockingStack.Terminated, _) => (Exit, st)
  | (BlockingStack.Empty, _) => (Wait, st)
  | (BlockingStack.Item _, q) =>
      let st1 := set_gcCommands q st in
      (Again, foldl collect st1 (map_to_list (BDVs_ st1)))
  end.

(** Modelled from the spec: one turn of [garbageCollectorThread] from the
    head of the loop, where the run flag is tested. *)
Definition garbageCollectorThread_turn {C N : Type} (st : t C N) : turn * t C N :=
  if negb (run_ st) then (Exit, st)
  else garbageCollectorThread_pop st.

Definition loop_turn {C N : Type}
  (relevant : N -> gmap string (BDV_Server_Object.walletRegStruct C) -> bool)
  (l : loop) (st : t C N) : turn * t C N :=
  match l with
  | GarbageCollectorThread => garbageCollectorThread_turn st
  | BdvMaintenanceLoop => bdvMaintenanceLoop_turn relevant st
  | BdvMaintenanceThread => bdvMaintenanceThread_turn relevant st
  end.

Definition loop_pop {C N : Type}
  (relevant : N -> gmap string (BDV_Server_Object.walletRegStruct C) -> bool)
  (l : loop) (st : t C N) : turn * t C N :=
  match l with
  | GarbageCollectorThread => garbageCollectorThread_pop st
  | BdvMaintenanceLoop => bdvMaintenanceLoop_pop relevant st
  | BdvMaintenanceThread => bdvMaintenanceThread_pop relevant st
  end.

(** Where a turn leaves the thread. *)
Definition after (o : turn) : position :=
  match o with
  | Exit => Finished
  | Again => AtLoopHead
  | Wait => InPop
  end.

(** One turn of a thread.  From the head of the loop it tests the run flag
    and pops; a thread that waits inside the pop is not back at the run
    flag: it goes on only with what the pop gives it, an item or the
    termination of the queue. *)
Definition thread_turn {C N : Type}
  (relevant : N -> gmap string (BDV_Server_Object.walletRegStruct C) -> bool)
  (th : thread) (st : t C N) : thread * t C N :=
  match stands th with
  | Finished => (th, st)
  | AtLoopHead =>
      let '(o, st') := loop_turn relevant (body th) st in
      (BuildThread (body th) (after o), st')
  | InPop =>
      let '(o, st') := loop_pop relevant (body th) st in
      (BuildThread (body th) (after o), st')
  end.

(** [thread::join]: the caller waits until the thread is past its loop.
    The joined thread takes its turns; the join is [Blocked] when the
    thread waits inside a pop that gives it nothing, or when the [fuel] is
    spent. *)
Fixpoint run_to_exit {C N : Type}
  (relevant : N -> gmap string (BDV_Server_Object.walletRegStruct C) -> bool)
  (fuel : nat) (th : thread) (st : t C N) : completion * thread * t C N :=
  match stands th with
  | Finished => (Returned, th, st)
  | _ =>
      match fuel with
      | O => (Blocked, th, st)
      | S fuel' =>
          let '(th', st') := thread_turn relevant th st in
          match stands th' with
          | InPop => (Blocked, th', st')
          | _ => run_to_exit relevant fuel' th' st'
          end
      end
  end.

(** The fuel a join is given: one turn for each queued item, and two
    more. *)
Definition enough_fuel {C N : Type} (st : t C N) : nat :=
  S (S (length (BlockingStack.data (gcCommands_ st))
     + length (BlockingStack.data (outerBDVNotifStack_ st))
     + length (BlockingStack.data (innerBDVNotifStack_ st)))).

(** Joins the threads of [ths] one after the other; returns the threads as
    they are left. *)
Fixpoint join_all {C N : Type}
  (relevant : N -> gmap string (BDV_Server_Object.walletRegStruct C) -> bool)
  (ths : list thread) (st : t C N) : completion * list thread * t C N :=
  match ths with
  | [] => (Returned, [], st)
  | th :: rest =>
      match run_to_exit relevant (enough_fuel st) th st with
      | (Returned, th', st1) =>
          let '(c, rest', st') := join_all relevant rest st1 in
          (c, th' :: rest', st')
      | (Blocked, th', st1) => (Blocked, th' :: rest, st1)
      end
  end.

(** Modelled from the spec: the body of [unregisterAllBDVs] is not in the
    header.  Every session of the snapshot is unregistered in turn. *)
Fixpoint unregister_each {C N : Type} (ids : list string) (st : t C N)
  : completion * t C N :=
  match ids with
  | [] => (Returned, st)
  | id :: rest =>
      match unregisterBDV id st with
      | (Returned, st') => unregister_each rest st'
      | (Blocked, st') => (Blocked, st')
      end
  end.

Definition unregisterAllBDVs {C N : Type} (st : t C N) : completion * t C N :=
  unregister_each (fst <$> map_to_list (BDVs_ st)) st.

(** Modelled from the spec: the body of [Clients::shutdown] is not in the
    header.  The run flag is cleared, the queues are terminated, the threads
    are joined, the remaining sessions are unregistered, and at the very end
    the shutdown hook is called. *)
Definition shutdown {C N : Type}
  (relevant : N -> gmap string (BDV_Server_Object.walletRegStruct C) -> bool)
  (st : t C N) : completion * t C N :=
  let st1 := set_run false st in
  let st2 := set_gcCommands (BlockingStack.terminate (gcCommands_ st1)) st1 in
  let st3 := set_outer (BlockingStack.terminate (outerBDVNotifStack_ st2)) st2 in
  let st4 := set_inner (BlockingStack.terminate (innerBDVNotifStack_ st3)) st3 in
  match join_all relevant (controlThreads_ st4) st4 with
  | (Blocked, ths, st5) => (Blocked, set_controlThreads ths st5)
  | (Returned, ths, st5) =>
      let st6 := set_controlThreads ths st5 in
      match unregisterAllBDVs st6 with
      | (Blocked, st7) => (Blocked, st7)
      | (Returned, st7) =>
          (Returned, set_shutdownCallback_runs (S (shutdownCallback_runs st7)) st7)
      end
  end.

(** What happens to a registry, one event after the other. *)
Inductive event (C N : Type) : Type :=
| RegisterBDV (cb : Callback.t N) (bdvID : string)
| UnregisterBDV (bdvID : string)
| RegisterWallet (bdvID : string) (ty : WalletType) (id : string) (command : C)
| Init (bdvID : string)
| Dispatch (notif : N)
| FanOut
| Deliver
| Collect
| Poll (bdvID : string).
Arguments RegisterBDV {C N} _ _.
Arguments UnregisterBDV {C N} _.
Arguments RegisterWallet {C N} _ _ _ _.
Arguments Init {C N} _.
Arguments Dispatch {C N} _.
Arguments FanOut {C N}.
Arguments Deliver {C N}.
Arguments Collect {C N}.
Arguments Poll {C N} _.

(** Applies [f] to the session registered under [id], if any. *)
Definition on_session {C N : Type} (id : string)
  (f : BDV_Server_Object.t C N -> BDV_Server_Object.t C N) (st : t C N) : t C N :=
  match BDVs_ st !! id with
  | Some bdv => set_BDVs (<[id := f bdv]> (BDVs_ st)) st
  | None => st
  end.

(** A poll of the session's channel, when it is a [LongPoll]. *)
Definition poll_session {C N : Type} (bdv : BDV_Server_Object.t C N)
  : BDV_Server_Object.t C N :=
  match BDV_Server_Object.cb_ bdv with
  | Some (Callback.OfLongPoll lp) =>
      BDV_Server_Object.set_cb
        (Some (Callback.OfLongPoll (LongPoll.exec lp LongPoll.CallRespond))) bdv
  | _ => bdv
  end.

(** One event.  An event that cannot take place (an unknown session, a
    second activation, a loop with nothing to pop) leaves the registry as it
    is. *)
Definition step {C N : Type}
  (relevant : N -> gmap string (BDV_Server_Object.walletRegStruct C) -> bool)
  (st : t C N) (e : event C N) : t C N :=
  match e with
  | RegisterBDV cb id => snd (registerBDV cb id st)
  | UnregisterBDV id => snd (unregisterBDV id st)
  | RegisterWallet bdv ty id command =>
      on_session bdv (BDV_Server_Object.registerEntity ty id command) st
  | Init bdv =>
      on_session bdv
        (fun s => default s (BDV_Server_Object.init s)) st
  | Dispatch notif => dispatch notif st
  | FanOut => snd (bdvMaintenanceLoop_turn relevant st)
  | Deliver => snd (bdvMaintenanceThread_turn relevant st)
  | Collect =>
      snd (garbageCollectorThread_turn
             (set_gcCommands (BlockingStack.push_back true (gcCommands_ st)) st))
  | Poll bdv => on_session bdv poll_session st
  end.

Definition run {C N : Type}
  (relevant : N -> gmap string (BDV_Server_Object.walletRegStruct C) -> bool)
  (events : list (event C N)) (st : t C N) : t C N :=
  foldl (step relevant) st events.







(** A relevance test for the examples: the notification names the entity
    it is about, and is relevant to the sessions that watch that entity. *)
Definition names_watched {C : Type} (notif : string)
  (watched : gmap string (BDV_Server_Object.walletRegStruct C)) : bool :=
  bool_decide (is_Some (watched !! notif)).

(** Every session sits in the map under its own ID. *)
Definition keyed_by_id {C N : Type} (m : gmap string (BDV_Server_Object.t C N))
  : Prop :=
  forall id bdv, m !! id = Some bdv -> BDV_Server_Object.bdvID_ bdv = id.

(** The part of the registry the notifications travel through. *)
Definition pipeline {C N : Type} (st : t C N)
  : list N * BlockingStack.t N * BlockingStack.t (packet N) * list (string * N) :=
  (accepted st, outerBDVNotifStack_ st, innerBDVNotifStack_ st, delivered st).


End Clients.

(** ** Threads on one LongPoll channel *)

Module Interleaving.

(** Where the thread that runs [LongPoll::shutdown] stands: before
    [notificationStack_.terminate()], before it owns [mu_], owning it, or
    back from the call. *)
Inductive shutdown_pc : Type :=
| BeforeTerminate
| BeforeLock
| OwnsLock
| Done.

(** A thread that polls or checks liveness is either outside the section
    guarded by [mu_] or inside it. *)
Inductive pc : Type :=
| Outside
| Inside.

Record t (M : Type) : Type := Build {
  channel : LongPoll.t M;
  closer : shutdown_pc;
  responders : list pc;
  checker : pc
}.
Arguments Build {M} _ _ _ _.
Arguments channel {M} _.
Arguments closer {M} _.
Arguments responders {M} _.
Arguments checker {M} _.

Definition initial {M : Type} (isReady : unit -> Z) (n : nat) : t M :=
  Build (LongPoll.new isReady) BeforeTerminate (replicate n Outside) Outside.

Inductive label (M : Type) : Type :=
| ShutdownTerminate
| ShutdownLock
| ShutdownReturn
| RespondEnter (i : nat)
| RespondLeave (i : nat) (r : LongPoll.response M)
| IsValidBusy
| IsValidEnter
| IsValidLeave (valid : bool)
| CallbackCall (command : M)
| ResetCounterCall.
Arguments ShutdownTerminate {M}.
Arguments ShutdownLock {M}.
Arguments ShutdownReturn {M}.
Arguments RespondEnter {M} _.
Arguments RespondLeave {M} _ _.
Arguments IsValidBusy {M}.
Arguments IsValidEnter {M}.
Arguments IsValidLeave {M} _.
Arguments CallbackCall {M} _.
Arguments ResetCounterCall {M}.

(** One atomic action of one thread.  The three actions of [shutdown] and
    the three of [isValid] are the statements of the header, in their order;
    the two of a responder are those of [LongPoll.respond]. *)
Inductive step {M : Type} : t M -> label M -> t M -> Prop :=
| step_shutdown_terminate st :
    closer st = BeforeTerminate ->
    step st ShutdownTerminate
      (Build (LongPoll.signal_terminate (channel st)) BeforeLock
         (responders st) (checker st))
| step_shutdown_lock st lp :
    closer st = BeforeLock ->
    LongPoll.lock (channel st) = Some lp ->
    step st ShutdownLock (Build lp OwnsLock (responders st) (checker st))
| step_shutdown_return st :
    closer st = OwnsLock ->
    step st ShutdownReturn
      (Build (LongPoll.unlock (channel st)) Done (responders st) (checker st))
| step_respond_enter st i lp :
    responders st !! i = Some Outside ->
    LongPoll.lock (channel st) = Some lp ->
    step st (RespondEnter i)
      (Build lp (closer st) (<[i := Inside]> (responders st)) (checker st))
| step_respond_leave st i elapsed r lp :
    responders st !! i = Some Inside ->
    LongPoll.respond_wake elapsed (channel st) = Some (r, lp) ->
    step st (RespondLeave i r)
      (Build (LongPoll.unlock lp) (closer st)
         (<[i := Outside]> (responders st)) (checker st))
| step_isValid_busy st :
    checker st = Outside ->
    fst (LongPoll.try_lock (channel st)) = false ->
    step st IsValidBusy st
| step_isValid_enter st :
    checker st = Outside ->
    fst (LongPoll.try_lock (channel st)) = true ->
    step st IsValidEnter
      (Build (snd (LongPoll.try_lock (channel st))) (closer st)
         (responders st) Inside)
| step_isValid_leave st :
    checker st = Inside ->
    step st
      (IsValidLeave
         (negb (CALLBACK_EXPIRE_COUNT <=?
                wrap_unsigned (fst (LongPoll.fetch_add 1 (channel st)) + 1))%Z))
      (Build (LongPoll.unlock (snd (LongPoll.fetch_add 1 (channel st))))
         (closer st) (responders st) Outside)
| step_callback st command :
    step st (CallbackCall command)
      (Build (LongPoll.callback command (channel st)) (closer st)
         (responders st) (checker st))
| step_resetCounter st :
    step st ResetCounterCall
      (Build (LongPoll.resetCounter (channel st)) (closer st)
         (responders st) (checker st)).

Inductive reachable {M : Type} (isReady : unit -> Z) (n : nat) : t M -> Prop :=
| reachable_initial : reachable isReady n (initial isReady n)
| reachable_step st l st' :
    reachable isReady n st -> step st l st' -> reachable isReady n st'.

(** The number of threads inside the section guarded by [mu_]. *)
Definition inside_count (p : pc) : nat :=
  match p with
  | Inside => 1
  | Outside => 0
  end.

Definition owners {M : Type} (st : t M) : nat :=
  (match closer st with OwnsLock => 1 | _ => 0 end)
  + inside_count (checker st)
  + sum_list (inside_count <$> responders st).

End Interleaving.

(** ** Theorems about the channels *)

Section Channels.
Context {M : Type}.
Implicit Types (lp : LongPoll.t M) (cb : Callback.t M).

Lemma isValid_free lp :
  LongPoll.mu_ lp = false ->
  LongPoll.isValid lp =
    (negb (CALLBACK_EXPIRE_COUNT <=? wrap_unsigned (LongPoll.count_ lp + 1))%Z,
     LongPoll.set_count (wrap_unsigned (LongPoll.count_ lp + 1)) lp).
Proof.
  destruct lp as [mu c s r]; simpl; intros ->.
  unfold LongPoll.isValid, LongPoll.try_lock; simpl.
  destruct (CALLBACK_EXPIRE_COUNT <=? wrap_unsigned (c + 1))%Z; reflexivity.
Qed.

Lemma isValid_during_respond_aux lp :
  LongPoll.mu_ lp = true -> LongPoll.isValid lp = (true, lp).
Proof.
  intros Hheld. unfold LongPoll.isValid, LongPoll.try_lock.
  rewrite Hheld. reflexivity.
Qed.

(** C3: a liveness check made while [mu_] is owned by a responder reports
    the channel valid and leaves the channel, its expiry counter included,
    as it was. *)
Theorem isValid_during_respond lp :
  LongPoll.mu_ lp = true ->
  LongPoll.isValid lp = (true, lp).
Proof. exact (isValid_during_respond_aux lp). Qed.

Lemma wrap_unsigned_small z :
  (0 <= z < unsigned_modulus)%Z -> wrap_unsigned z = z.
Proof. intros Hz. unfold wrap_unsigned. apply Z.mod_small. exact Hz. Qed.

Lemma isValid_free_state lp :
  LongPoll.mu_ lp = false ->
  snd (LongPoll.isValid lp) =
    LongPoll.set_count (wrap_unsigned (LongPoll.count_ lp + 1)) lp.
Proof. intros Hfree. rewrite (isValid_free lp Hfree). reflexivity. Qed.

Lemma isValid_mu lp : LongPoll.mu_ (snd (LongPoll.isValid lp)) = LongPoll.mu_ lp.
Proof.
  destruct (LongPoll.mu_ lp) eqn:Hmu.
  - rewrite (isValid_during_respond_aux lp Hmu). exact Hmu.
  - rewrite (isValid_free_state lp Hmu). exact Hmu.
Qed.

Lemma shutdown_free lp :
  LongPoll.mu_ lp = false ->
  LongPoll.shutdown lp = (Returned, LongPoll.signal_terminate lp).
Proof. destruct lp as [mu c s r]; simpl; intros ->. reflexivity. Qed.

Lemma shutdown_owned lp :
  LongPoll.mu_ lp = true ->
  LongPoll.shutdown lp = (Blocked, LongPoll.signal_terminate lp).
Proof. destruct lp as [mu c s r]; simpl; intros ->. reflexivity. Qed.

Lemma respond_free elapsed lp :
  LongPoll.mu_ lp = false ->
  LongPoll.respond elapsed lp =
    match TimedStack.pop_all (LongPoll.notificationStack_ lp) with
    | (TimedStack.Terminated, _) =>
        Some (LongPoll.TerminatedResponse, LongPoll.resetCounter lp)
    | (TimedStack.Batch orderVec, s) =>
        Some (LongPoll.Notifications orderVec,
              LongPoll.resetCounter (LongPoll.set_stack s lp))
    | (TimedStack.Empty, _) =>
        if (LongPoll.isReady_ lp tt =? 0)%Z || elapsed
        then Some (LongPoll.NoData, LongPoll.resetCounter lp)
        else None
    end.
Proof.
  destruct lp as [mu c [d t] r]; simpl; intros ->.
  unfold LongPoll.respond, LongPoll.respond_wake, TimedStack.pop_all; simpl.
  destruct t; [reflexivity |].
  destruct d; [| reflexivity].
  destruct ((r tt =? 0)%Z || elapsed); reflexivity.
Qed.

Lemma respond_count elapsed lp r lp' :
  LongPoll.respond elapsed lp = Some (r, lp') -> LongPoll.count_ lp' = 0%Z.
Proof.
  unfold LongPoll.respond, LongPoll.lock.
  destruct (LongPoll.mu_ lp); [discriminate |].
  unfold LongPoll.respond_wake.
  destruct (TimedStack.pop_all _) as [[| |orderVec] s]; simpl.
  - intros [= <- <-]. reflexivity.
  - destruct (_ || _); [| discriminate]. intros [= <- <-]. reflexivity.
  - intros [= <- <-]. reflexivity.
Qed.

Lemma respond_mu elapsed lp r lp' :
  LongPoll.respond elapsed lp = Some (r, lp') -> LongPoll.mu_ lp' = false.
Proof.
  unfold LongPoll.respond.
  destruct (LongPoll.lock lp) as [lp1|]; [| discriminate].
  destruct (LongPoll.respond_wake elapsed lp1) as [[r' lp2]|]; [| discriminate].
  intros [= <- <-]. reflexivity.
Qed.

Lemma respond_terminated elapsed lp r lp' :
  LongPoll.respond elapsed lp = Some (r, lp') ->
  TimedStack.terminated (LongPoll.notificationStack_ lp) = true ->
  TimedStack.terminated (LongPoll.notificationStack_ lp') = true.
Proof.
  unfold LongPoll.respond, LongPoll.lock.
  destruct (LongPoll.mu_ lp); [discriminate |].
  unfold LongPoll.respond_wake, TimedStack.pop_all. simpl.
  intros H Hterm. rewrite Hterm in H. injection H as <- <-. exact Hterm.
Qed.

(** Calls one after the other never leave [mu_] owned, and never bring a
    terminated queue back. *)
Lemma exec_mu lp c :
  LongPoll.mu_ lp = false -> LongPoll.mu_ (LongPoll.exec lp c) = false.
Proof.
  intros Hfree. destruct c; simpl.
  - exact Hfree.
  - rewrite isValid_mu. exact Hfree.
  - exact Hfree.
  - rewrite (shutdown_free lp Hfree). exact Hfree.
  - destruct (LongPoll.respond true lp) as [[r lp']|] eqn:Hr; [| exact Hfree].
    exact (respond_mu _ _ _ _ Hr).
Qed.

Lemma exec_terminated lp c :
  TimedStack.terminated (LongPoll.notificationStack_ lp) = true ->
  TimedStack.terminated (LongPoll.notificationStack_ (LongPoll.exec lp c)) = true.
Proof.
  intros Hterm. destruct c; simpl.
  - exact Hterm.
  - destruct (LongPoll.mu_ lp) eqn:Hmu.
    + rewrite (isValid_during_respond_aux lp Hmu). exact Hterm.
    + rewrite (isValid_free_state lp Hmu). exact Hterm.
  - exact Hterm.
  - destruct (LongPoll.mu_ lp) eqn:Hmu.
    + rewrite (shutdown_owned lp Hmu). reflexivity.
    + rewrite (shutdown_free lp Hmu). reflexivity.
  - destruct (LongPoll.respond true lp) as [[r lp']|] eqn:Hr; [| exact Hterm].
    exact (respond_terminated _ _ _ _ Hr Hterm).
Qed.

Lemma run_mu calls lp :
  LongPoll.mu_ lp = false -> LongPoll.mu_ (LongPoll.run calls lp) = false.
Proof.
  revert lp. induction calls as [|c calls IH]; intros lp Hfree; [exact Hfree |].
  apply IH, exec_mu, Hfree.
Qed.

Lemma run_terminated calls lp :
  TimedStack.terminated (LongPoll.notificationStack_ lp) = true ->
  TimedStack.terminated
    (LongPoll.notificationStack_ (LongPoll.run calls lp)) = true.
Proof.
  revert lp. induction calls as [|c calls IH]; intros lp Hterm; [exact Hterm |].
  apply IH, exec_terminated, Hterm.
Qed.

Lemma run_counter_grows calls lp :
  Forall LongPoll.keeps_counter calls ->
  LongPoll.mu_ lp = false ->
  (0 <= LongPoll.count_ lp)%Z ->
  (LongPoll.count_ lp + Z.of_nat (length calls) < unsigned_modulus)%Z ->
  (LongPoll.count_ lp <= LongPoll.count_ (LongPoll.run calls lp)
   <= LongPoll.count_ lp + Z.of_nat (length calls))%Z.
Proof.
  revert lp. induction calls as [|c calls IH]; intros lp Hall Hfree H0 Hlt.
  { simpl. lia. }
  apply Forall_cons in Hall as [Hc Hall].
  change (LongPoll.run (c :: calls) lp)
    with (LongPoll.run calls (LongPoll.exec lp c)).
  rewrite length_cons, Nat2Z.inj_succ in Hlt |- *.
  assert (Hstep : (LongPoll.count_ lp <= LongPoll.count_ (LongPoll.exec lp c)
                   <= LongPoll.count_ lp + 1)%Z).
  { destruct c; simpl in *; try contradiction; try lia.
    - rewrite (isValid_free_state lp Hfree). simpl.
      rewrite wrap_unsigned_small by lia. lia.
    - rewrite (shutdown_free lp Hfree). simpl. lia. }
  specialize (IH (LongPoll.exec lp c) Hall (exec_mu lp c Hfree)).
  lia.
Qed.

(** C1 (as amended): the expiry counter starts at 0; a liveness check made
    while [mu_] is free adds exactly 1 to it (the 32-bit counter wraps after
    4294967295) and reports the channel dead exactly when the new value is
    at least 5; [resetCounter], and with it every completed poll response,
    puts it back to 0; once the counter has reached 5 every later liveness
    check made while [mu_] is free reports the channel dead, as long as no
    reset and no poll response has come in between and the counter has not
    wrapped. *)
Theorem expiry_counter_until_reset :
  (forall isReady, LongPoll.count_ (@LongPoll.new M isReady) = 0%Z) /\
  (forall lp, LongPoll.mu_ lp = false ->
     LongPoll.count_ (snd (LongPoll.isValid lp))
       = wrap_unsigned (LongPoll.count_ lp + 1) /\
     ((0 <= LongPoll.count_ lp < unsigned_modulus - 1)%Z ->
      LongPoll.count_ (snd (LongPoll.isValid lp)) = (LongPoll.count_ lp + 1)%Z) /\
     (fst (LongPoll.isValid lp) = false <->
      (CALLBACK_EXPIRE_COUNT <= wrap_unsigned (LongPoll.count_ lp + 1))%Z)) /\
  (forall lp, LongPoll.count_ (LongPoll.resetCounter lp) = 0%Z) /\
  (forall elapsed lp r lp',
     LongPoll.respond elapsed lp = Some (r, lp') -> LongPoll.count_ lp' = 0%Z) /\
  (forall lp calls,
     LongPoll.mu_ lp = false ->
     (CALLBACK_EXPIRE_COUNT - 1 <= LongPoll.count_ lp)%Z ->
     Forall LongPoll.keeps_counter calls ->
     (LongPoll.count_ lp + Z.of_nat (length calls) + 1 < unsigned_modulus)%Z ->
     fst (LongPoll.isValid (LongPoll.run calls lp)) = false).
Proof.
  split; [reflexivity |].
  split.
  { intros lp Hfree. rewrite (isValid_free lp Hfree). simpl.
    split; [reflexivity |]. split.
    - intros Hrange. apply wrap_unsigned_small. lia.
    - rewrite negb_false_iff. apply Z.leb_le. }
  split; [reflexivity |].
  split; [exact respond_count |].
  intros lp calls Hfree Hreached Hkeep Hwrap.
  unfold CALLBACK_EXPIRE_COUNT in Hreached.
  pose proof (run_counter_grows calls lp Hkeep Hfree ltac:(lia) ltac:(lia)) as Hc.
  rewrite (isValid_free _ (run_mu calls lp Hfree)). simpl.
  rewrite negb_false_iff. apply Z.leb_le.
  rewrite wrap_unsigned_small by lia.
  unfold CALLBACK_EXPIRE_COUNT. lia.
Qed.

(** C4: a poll that finds at least one notification queued takes all that is
    queued, in the order it was queued, as one batch, leaves the queue empty
    and the expiry counter at 0, and gives [mu_] back; a responder that
    waits inside a poll and finds the queue terminated leaves with
    [TerminatedResponse]; a poll that finds the queue terminated answers
    [TerminatedResponse], and so does every poll made after it, whatever
    calls are made in between. *)
Theorem respond_drains_or_terminates :
  (forall elapsed lp m rest,
     LongPoll.mu_ lp = false ->
     TimedStack.terminated (LongPoll.notificationStack_ lp) = false ->
     TimedStack.data (LongPoll.notificationStack_ lp) = m :: rest ->
     LongPoll.respond elapsed lp =
       Some (LongPoll.Notifications (m :: rest),
             LongPoll.Build false 0 TimedStack.empty (LongPoll.isReady_ lp))) /\
  (forall elapsed lp,
     TimedStack.terminated (LongPoll.notificationStack_ lp) = true ->
     exists lp', LongPoll.respond_wake elapsed lp
                 = Some (LongPoll.TerminatedResponse, lp')) /\
  (forall elapsed lp,
     LongPoll.mu_ lp = false ->
     TimedStack.terminated (LongPoll.notificationStack_ lp) = true ->
     exists lp',
       LongPoll.respond elapsed lp = Some (LongPoll.TerminatedResponse, lp') /\
       forall calls elapsed', exists lp'',
         LongPoll.respond elapsed' (LongPoll.run calls lp')
         = Some (LongPoll.TerminatedResponse, lp'')).
Proof.
  assert (Hterm : forall elapsed lp,
    LongPoll.mu_ lp = false ->
    TimedStack.terminated (LongPoll.notificationStack_ lp) = true ->
    LongPoll.respond elapsed lp
    = Some (LongPoll.TerminatedResponse, LongPoll.resetCounter lp)).
  { intros elapsed lp Hfree Ht. rewrite (respond_free elapsed lp Hfree).
    unfold TimedStack.pop_all. rewrite Ht. reflexivity. }
  split; [| split].
  - intros elapsed lp m rest Hfree Ht Hd.
    rewrite (respond_free elapsed lp Hfree).
    unfold TimedStack.pop_all. rewrite Ht, Hd.
    destruct lp as [mu c s r]. simpl in *. subst mu. reflexivity.
  - intros elapsed lp Ht. eexists.
    unfold LongPoll.respond_wake, TimedStack.pop_all. rewrite Ht. reflexivity.
  - intros elapsed lp Hfree Ht. eexists. split; [exact (Hterm elapsed lp Hfree Ht) |].
    intros calls elapsed'. eexists. apply Hterm.
    + apply run_mu. exact Hfree.
    + apply run_terminated. exact Ht.
Qed.

Lemma shutdown_twice lp :
  LongPoll.shutdown (snd (LongPoll.shutdown lp)) = LongPoll.shutdown lp.
Proof.
  destruct (LongPoll.mu_ lp) eqn:Hmu.
  - rewrite (shutdown_owned lp Hmu). simpl.
    rewrite shutdown_owned by exact Hmu. reflexivity.
  - rewrite (shutdown_free lp Hmu). simpl.
    rewrite shutdown_free by exact Hmu. reflexivity.
Qed.

(** C9: for a [LongPoll] and for a [WS_Callback] alike, a second [shutdown]
    comes back as the first did and leaves the channel as the first left
    it; so does the destructor of a [LongPoll] that has been shut down. *)
Theorem shutdown_idempotent :
  (forall cb,
     Callback.shutdown (snd (Callback.shutdown cb)) = Callback.shutdown cb) /\
  (forall lp,
     LongPoll.destroy (snd (LongPoll.shutdown lp)) = LongPoll.shutdown lp).
Proof.
  split; [| exact shutdown_twice].
  intros [lp|ws]; simpl; [| reflexivity].
  pose proof (shutdown_twice lp) as Htwice.
  destruct (LongPoll.shutdown lp) as [c lp1]. simpl in *.
  rewrite Htwice. reflexivity.
Qed.

(** C10: [BDV_Server_Object::resetCounter] never goes through a null
    pointer, whatever the session's channel is; when the channel is not a
    [LongPoll] (a [WS_Callback], or no channel at all) the session is left
    exactly as it was. *)
Theorem resetCounter_safe {C : Type} (s : BDV_Server_Object.t C M) :
  is_Some (BDV_Server_Object.resetCounter s) /\
  (Callback.dynamic_cast_LongPoll (BDV_Server_Object.cb_ s) = None ->
   BDV_Server_Object.resetCounter s = Some s) /\
  (forall ws, BDV_Server_Object.cb_ s = Some (Callback.OfWS ws) ->
   BDV_Server_Object.resetCounter s = Some s).
Proof.
  unfold BDV_Server_Object.resetCounter, BDV_Server_Object.deref.
  split; [| split].
  - destruct (Callback.dynamic_cast_LongPoll _) as [lp|]; simpl; eauto.
  - intros ->. reflexivity.
  - intros ws ->. reflexivity.
Qed.

End Channels.

Lemma isValid_during_respond_witness :
  LongPoll.isValid (LongPoll.Build true 7 (TimedStack.Build [1%nat] false) (fun _ => 1%Z))
  = (true, LongPoll.Build true 7 (TimedStack.Build [1%nat] false) (fun _ => 1%Z)).
Proof.
  apply (@isValid_during_respond nat). reflexivity.
Defined.

(** C1 (as stated) fails: after five liveness checks the counter is 5 and
    the fifth check reports the channel dead; one [resetCounter] later the
    next check reports it valid again. *)
Lemma expiry_not_permanent :
  let lp4 : LongPoll.t unit :=
    LongPoll.run (replicate 4 LongPoll.CallIsValid) (LongPoll.new (fun _ => 1%Z)) in
  let lp5 := snd (LongPoll.isValid lp4) in
  LongPoll.count_ lp5 = CALLBACK_EXPIRE_COUNT /\
  fst (LongPoll.isValid lp4) = false /\
  fst (LongPoll.isValid (LongPoll.resetCounter lp5)) = true.
Proof. vm_compute. repeat split. Qed.

Lemma expiry_counter_until_reset_witness :
  fst (LongPoll.isValid
         (LongPoll.run
            [LongPoll.CallIsValid; LongPoll.CallCallback tt; LongPoll.CallShutdown]
            (LongPoll.Build false 5 TimedStack.empty (fun _ => 1%Z))))
  = false.
Proof.
  destruct (@expiry_counter_until_reset unit) as (_ & _ & _ & _ & Hdead).
  apply Hdead.
  - reflexivity.
  - vm_compute. discriminate.
  - repeat constructor.
  - vm_compute. reflexivity.
Defined.

Lemma respond_drains_or_terminates_witness :
  LongPoll.respond false
    (LongPoll.Build false 3 (TimedStack.Build [10%nat; 20%nat] false) (fun _ => 1%Z))
  = Some (LongPoll.Notifications [10%nat; 20%nat],
          LongPoll.Build false 0 TimedStack.empty (fun _ => 1%Z)).
Proof.
  destruct (@respond_drains_or_terminates nat) as (Hdata & _ & _).
  apply (Hdata false
           (LongPoll.Build false 3 (TimedStack.Build [10%nat; 20%nat] false)
              (fun _ => 1%Z)) 10%nat [20%nat]); reflexivity.
Defined.

Lemma resetCounter_safe_witness :
  BDV_Server_Object.resetCounter
    (BDV_Server_Object.new (C := unit) (M := unit) "bdv"
       (Callback.OfWS (WS_Callback.Build 7)))
  = Some (BDV_Server_Object.new "bdv" (Callback.OfWS (WS_Callback.Build 7))).
Proof.
  destruct (resetCounter_safe
              (BDV_Server_Object.new (C := unit) (M := unit) "bdv"
                 (Callback.OfWS (WS_Callback.Build 7)))) as (_ & _ & Hws).
  apply (Hws (WS_Callback.Build 7)). reflexivity.
Defined.

(** ** Theorems about the threads on one channel *)

Section Shutdown.
Context {M : Type}.
Implicit Types (st : Interleaving.t M) (lp : LongPoll.t M).

Lemma inside_count_enter (l : list Interleaving.pc) i :
  l !! i = Some Interleaving.Outside ->
  sum_list (Interleaving.inside_count <$> <[i := Interleaving.Inside]> l)
  = S (sum_list (Interleaving.inside_count <$> l)).
Proof.
  revert i. induction l as [|p l IH]; intros [|i] Hi; try discriminate.
  - injection Hi as ->. reflexivity.
  - change (Interleaving.inside_count p
            + sum_list (Interleaving.inside_count <$> <[i := Interleaving.Inside]> l)
            = S (Interleaving.inside_count p
                 + sum_list (Interleaving.inside_count <$> l))).
    rewrite (IH i Hi). lia.
Qed.

Lemma inside_count_leave (l : list Interleaving.pc) i :
  l !! i = Some Interleaving.Inside ->
  S (sum_list (Interleaving.inside_count <$> <[i := Interleaving.Outside]> l))
  = sum_list (Interleaving.inside_count <$> l).
Proof.
  revert i. induction l as [|p l IH]; intros [|i] Hi; try discriminate.
  - injection Hi as ->. reflexivity.
  - change (S (Interleaving.inside_count p
               + sum_list (Interleaving.inside_count <$> <[i := Interleaving.Outside]> l))
            = Interleaving.inside_count p
              + sum_list (Interleaving.inside_count <$> l)).
    rewrite <- (IH i Hi). lia.
Qed.


Lemma lock_inv lp lp' :
  LongPoll.lock lp = Some lp' ->
  LongPoll.mu_ lp = false /\ lp' = LongPoll.set_mu true lp.
Proof.
  unfold LongPoll.lock. destruct (LongPoll.mu_ lp); [discriminate |].
  intros [= <-]. split; reflexivity.
Qed.


Lemma respond_wake_keeps elapsed lp r lp' :
  LongPoll.respond_wake elapsed lp = Some (r, lp') ->
  LongPoll.mu_ lp' = LongPoll.mu_ lp /\
  (TimedStack.terminated (LongPoll.notificationStack_ lp) = true ->
   TimedStack.terminated (LongPoll.notificationStack_ lp') = true).
Proof.
  unfold LongPoll.respond_wake, TimedStack.pop_all.
  destruct (TimedStack.terminated (LongPoll.notificationStack_ lp)) eqn:Ht.
  { intros [= <- <-]. split; [reflexivity | intros _; exact Ht]. }
  destruct (TimedStack.data (LongPoll.notificationStack_ lp)).
  - destruct (_ || _); [| discriminate].
    intros [= <- <-]. split; [reflexivity | discriminate].
  - intros [= <- <-]. split; [reflexivity | discriminate].
Qed.

(** [mu_] is owned exactly when one thread is inside the guarded section,
    and the queue is terminated from the first statement of [shutdown]
    on. *)
Lemma reachable_invariant isReady n st :
  Interleaving.reachable isReady n st ->
  Interleaving.owners st = (if LongPoll.mu_ (Interleaving.channel st) then 1 else 0) /\
  (Interleaving.closer st <> Interleaving.BeforeTerminate ->
   TimedStack.terminated
     (LongPoll.notificationStack_ (Interleaving.channel st)) = true).
Proof.
  induction 1 as [|st l st' Hreach [Hown Hterm] Hstep].
  { split; [| intros []; reflexivity].
    unfold Interleaving.owners, Interleaving.initial. simpl.
    induction n as [|n IHn]; [reflexivity | exact IHn]. }
  destruct st as [lp cl rs ck]. unfold Interleaving.owners in *.
  inversion Hstep; simplify_eq/=;
    repeat match goal with
    | H : LongPoll.lock _ = Some _ |- _ => apply lock_inv in H as [? ->]
    | H : LongPoll.respond_wake _ _ = Some _ |- _ =>
        apply respond_wake_keeps in H as [? ?]
    | H : ?l !! ?i = Some Interleaving.Outside |- _ =>
        rewrite (inside_count_enter l i H); clear H
    | H : ?l !! ?i = Some Interleaving.Inside |- _ =>
        pose proof (inside_count_leave l i H); clear H
    | H : fst (LongPoll.try_lock ?x) = _ |- _ =>
        unfold LongPoll.try_lock in *; destruct (LongPoll.mu_ x) eqn:?;
        simplify_eq/=
    end;
    (split; [destruct (LongPoll.mu_ lp); simplify_eq/=; lia | by auto]).
Qed.


End Shutdown.



(** ** Theorems about sessions *)

Section Sessions.
Context {C M : Type}.
Implicit Types (s : BDV_Server_Object.t C M)
  (regs : list (BDV_Server_Object.registration C)).

Lemma latest_snoc id regs r :
  BDV_Server_Object.latest id (regs ++ [r])
  = if decide (snd (fst r) = id) then Some r
    else BDV_Server_Object.latest id regs.
Proof.
  unfold BDV_Server_Object.latest. rewrite filter_app.
  rewrite filter_cons, filter_nil.
  destruct (decide (snd (fst r) = id)).
  - apply last_snoc.
  - rewrite app_nil_r. reflexivity.
Qed.

(** Before activation every registration lands in the buffer and nowhere
    else. *)
Lemma register_all_buffered regs s :
  BDV_Server_Object.isReady s = false ->
  BDV_Server_Object.isReady (BDV_Server_Object.register_all regs s) = false /\
  BDV_Server_Object.wallets (BDV_Server_Object.register_all regs s)
    = BDV_Server_Object.wallets s /\
  forall id,
    BDV_Server_Object.wltRegMap_ (BDV_Server_Object.register_all regs s) !! id
    = match BDV_Server_Object.latest id regs with
      | Some r => Some (BDV_Server_Object.entry r)
      | None => BDV_Server_Object.wltRegMap_ s !! id
      end.
Proof.
  intros Hs. induction regs as [|r regs IH] using rev_ind.
  { repeat split; assumption || reflexivity. }
  destruct IH as (Hready & Hw & Hbuf).
  unfold BDV_Server_Object.register_all in *. rewrite foldl_snoc.
  unfold BDV_Server_Object.registerEntity at 1 3 5. rewrite Hready. simpl.
  split; [exact Hready |]. split; [exact Hw |].
  intros id. rewrite latest_snoc. destruct (decide (snd (fst r) = id)) as [<-|Hne].
  - rewrite lookup_insert_eq. reflexivity.
  - rewrite lookup_insert_ne by exact Hne. apply Hbuf.
Qed.

(** C6: the registrations made before activation are all watched once
    [init] has returned: each entity ID registered is in the watch-set, under
    the last registration made for it, the buffer is empty and the session
    is ready; nothing else has entered the watch-set. *)
Theorem init_resolves_buffered regs s :
  BDV_Server_Object.isReady s = false ->
  exists s',
    BDV_Server_Object.init (BDV_Server_Object.register_all regs s) = Some s' /\
    BDV_Server_Object.isReady s' = true /\
    BDV_Server_Object.wltRegMap_ s' = ∅ /\
    (forall id,
       BDV_Server_Object.wallets s' !! id
       = match BDV_Server_Object.latest id regs with
         | Some r => Some (BDV_Server_Object.entry r)
         | None =>
             (BDV_Server_Object.wltRegMap_ s ∪ BDV_Server_Object.wallets s) !! id
         end) /\
    dom (BDV_Server_Object.wallets s')
    = list_to_set ((fun r => snd (fst r)) <$> regs)
      ∪ dom (BDV_Server_Object.wltRegMap_ s) ∪ dom (BDV_Server_Object.wallets s).
Proof.
  intros Hs.
  destruct (register_all_buffered regs s Hs) as (Hready & Hw & Hbuf).
  unfold BDV_Server_Object.init. rewrite Hready. eexists. split; [reflexivity |].
  simpl. rewrite Hw.
  assert (Hlook : forall id,
    (BDV_Server_Object.wltRegMap_ (BDV_Server_Object.register_all regs s)
       ∪ BDV_Server_Object.wallets s) !! id
    = match BDV_Server_Object.latest id regs with
      | Some r => Some (BDV_Server_Object.entry r)
      | None =>
          (BDV_Server_Object.wltRegMap_ s ∪ BDV_Server_Object.wallets s) !! id
      end).
  { intros id. rewrite !lookup_union, Hbuf.
    destruct (BDV_Server_Object.latest id regs) as [r|]; [| reflexivity].
    destruct (BDV_Server_Object.wallets s !! id); reflexivity. }
  repeat split; [exact Hlook |].
  apply set_eq. intros id. rewrite elem_of_dom, Hlook.
  rewrite <- union_assoc_L, <- dom_union_L.
  rewrite elem_of_union, elem_of_dom, elem_of_list_to_set, list_elem_of_fmap.
  unfold BDV_Server_Object.latest.
  destruct (last _) as [r|] eqn:Hlast.
  - split; [| intros _; eauto].
    intros _. left. exists r.
    apply last_Some_elem_of, list_elem_of_filter in Hlast as [Hid Hin].
    split; [symmetry; exact Hid | exact Hin].
  - apply last_None in Hlast. split; [intros H; right; exact H |].
    intros [(r & Hid & Hin) | H]; [| exact H].
    exfalso. assert (Hf : r ∈ filter (fun r => snd (fst r) = id) regs).
    { apply list_elem_of_filter. split; [symmetry; exact Hid | exact Hin]. }
    rewrite Hlast in Hf. inversion Hf.
Qed.

End Sessions.

Lemma init_resolves_buffered_witness :
  exists s' : BDV_Server_Object.t nat unit,
    BDV_Server_Object.init
      (BDV_Server_Object.register_all
         [(TypeWallet, "w", 1); (TypeLockbox, "w", 2); (TypeWallet, "v", 3)]
         (BDV_Server_Object.new "A" (Callback.OfWS (WS_Callback.Build 7))))
    = Some s' /\
    BDV_Server_Object.wallets s' !! "w"
    = Some (BDV_Server_Object.BuildReg 2 TypeLockbox) /\
    BDV_Server_Object.wallets s' !! "v"
    = Some (BDV_Server_Object.BuildReg 3 TypeWallet).
Proof.
  destruct (init_resolves_buffered
              [(TypeWallet, "w", 1); (TypeLockbox, "w", 2); (TypeWallet, "v", 3)]
              (BDV_Server_Object.new (C := nat) (M := unit) "A"
                 (Callback.OfWS (WS_Callback.Build 7))) eq_refl)
    as (s' & Hinit & _ & _ & Hlook & _).
  exists s'. split; [exact Hinit |].
  split; rewrite Hlook; reflexivity.
Defined.

(** ** Theorems about the registry *)

Section Registry.
Context {C N : Type}.
Variable relevant : N -> gmap string (BDV_Server_Object.walletRegStruct C) -> bool.
Implicit Types (st : Clients.t C N) (bdv : BDV_Server_Object.t C N)
  (m : gmap string (BDV_Server_Object.t C N)).

Lemma keyed_insert m id bdv :
  Clients.keyed_by_id m -> BDV_Server_Object.bdvID_ bdv = id ->
  Clients.keyed_by_id (<[id := bdv]> m).
Proof.
  intros Hm Hid id' bdv'. rewrite lookup_insert_Some.
  intros [[<- <-] | [_ Hl]]; [exact Hid | exact (Hm _ _ Hl)].
Qed.

Lemma keyed_delete m id : Clients.keyed_by_id m -> Clients.keyed_by_id (delete id m).
Proof.
  intros Hm id' bdv'. rewrite lookup_delete_Some. intros [_ Hl]. exact (Hm _ _ Hl).
Qed.

Lemma unregisterBDV_keyed id st :
  Clients.keyed_by_id (Clients.BDVs_ st) ->
  Clients.keyed_by_id (Clients.BDVs_ (snd (Clients.unregisterBDV id st))).
Proof.
  intros Hk. unfold Clients.unregisterBDV.
  destruct (Clients.BDVs_ st !! id) as [bdv|]; [| exact Hk].
  destruct (BDV_Server_Object.haltThreads bdv) as [[|] bdv']; simpl;
    apply keyed_delete, Hk.
Qed.

Lemma on_session_keyed id f st :
  (forall bdv, BDV_Server_Object.bdvID_ (f bdv) = BDV_Server_Object.bdvID_ bdv) ->
  Clients.keyed_by_id (Clients.BDVs_ st) ->
  Clients.keyed_by_id (Clients.BDVs_ (Clients.on_session id f st)).
Proof.
  intros Hf Hk. unfold Clients.on_session.
  destruct (Clients.BDVs_ st !! id) as [bdv|] eqn:Hl; [| exact Hk].
  simpl. apply keyed_insert; [exact Hk |]. rewrite Hf. exact (Hk _ _ Hl).
Qed.

Lemma processNotification_id notif bdv :
  BDV_Server_Object.bdvID_
    (fst (BDV_Server_Object.processNotification relevant notif bdv))
  = BDV_Server_Object.bdvID_ bdv.
Proof.
  unfold BDV_Server_Object.processNotification.
  destruct (relevant notif _); [| reflexivity].
  destruct (BDV_Server_Object.cb_ bdv); reflexivity.
Qed.

Lemma collect_keyed st e :
  Clients.keyed_by_id (Clients.BDVs_ st) ->
  Clients.keyed_by_id (Clients.BDVs_ (Clients.collect st e)).
Proof.
  intros Hk. unfold Clients.collect.
  destruct (Clients.BDVs_ st !! fst e) as [bdv|] eqn:Hl; [| exact Hk].
  destruct (BDV_Server_Object.cb_ bdv) as [cb|]; [| exact Hk].
  destruct (Callback.isValid cb) as [valid cb'].
  assert (Hk' : Clients.keyed_by_id
    (<[fst e := BDV_Server_Object.set_cb (Some cb') bdv]> (Clients.BDVs_ st))).
  { apply keyed_insert; [exact Hk | exact (Hk _ _ Hl)]. }
  destruct valid; [exact Hk' |].
  apply unregisterBDV_keyed. exact Hk'.
Qed.

Lemma foldl_collect_keyed l st :
  Clients.keyed_by_id (Clients.BDVs_ st) ->
  Clients.keyed_by_id (Clients.BDVs_ (foldl Clients.collect st l)).
Proof.
  revert st. induction l as [|e l IH]; intros st Hk; [exact Hk |].
  apply IH, collect_keyed, Hk.
Qed.

Lemma step_keyed st e :
  Clients.keyed_by_id (Clients.BDVs_ st) ->
  Clients.keyed_by_id (Clients.BDVs_ (Clients.step relevant st e)).
Proof.
  intros Hk. destruct e as [cb id|id|id ty ent command|id|notif| | | |id]; simpl.
  - unfold Clients.registerBDV.
    destruct (Clients.BDVs_ st !! id); [exact Hk |].
    simpl. apply keyed_insert; [exact Hk | reflexivity].
  - apply unregisterBDV_keyed, Hk.
  - apply on_session_keyed; [| exact Hk].
    intros bdv. unfold BDV_Server_Object.registerEntity.
    destruct (BDV_Server_Object.isReady bdv); reflexivity.
  - apply on_session_keyed; [| exact Hk].
    intros bdv. unfold BDV_Server_Object.init.
    destruct (BDV_Server_Object.isReady bdv); reflexivity.
  - exact Hk.
  - unfold Clients.bdvMaintenanceLoop_turn, Clients.bdvMaintenanceLoop_pop.
    destruct (negb (Clients.run_ st)); [exact Hk |].
    destruct (BlockingStack.pop_front _) as [[| |notif] q]; exact Hk.
  - unfold Clients.bdvMaintenanceThread_turn, Clients.bdvMaintenanceThread_pop.
    destruct (negb (Clients.run_ st)); [exact Hk |].
    destruct (BlockingStack.pop_front _) as [[| |p] q]; try exact Hk.
    simpl. destruct (Clients.BDVs_ st !! Clients.bdvID p) as [bdv|] eqn:Hl;
      [| exact Hk].
    pose proof (processNotification_id (Clients.notifPtr_ p) bdv) as Hid.
    destruct (BDV_Server_Object.processNotification _ _ bdv) as [bdv' sent].
    assert (Hk' : Clients.keyed_by_id (<[Clients.bdvID p := bdv']> (Clients.BDVs_ st))).
    { apply keyed_insert; [exact Hk |]. simpl in Hid. rewrite Hid.
      exact (Hk _ _ Hl). }
    destruct sent; exact Hk'.
  - unfold Clients.garbageCollectorThread_turn, Clients.garbageCollectorThread_pop.
    simpl.
    destruct (negb (Clients.run_ st)); [exact Hk |].
    destruct (BlockingStack.pop_front _) as [[| |b] q]; try exact Hk.
    simpl. apply foldl_collect_keyed. exact Hk.
  - apply on_session_keyed; [| exact Hk].
    intros bdv. unfold Clients.poll_session.
    destruct (BDV_Server_Object.cb_ bdv) as [[lp|ws]|]; reflexivity.
Qed.

Lemma run_keyed events st :
  Clients.keyed_by_id (Clients.BDVs_ st) ->
  Clients.keyed_by_id (Clients.BDVs_ (Clients.run relevant events st)).
Proof.
  revert st. induction events as [|e events IH]; intros st Hk; [exact Hk |].
  apply IH, step_keyed, Hk.
Qed.






























(** *** The history and the channel *)













(** C8: [registerBDV] refuses an ID that is already registered with
    [DuplicateSession] and leaves the registry exactly as it was; it never
    replaces a registered session; and in every registry reached from the
    empty one, two entries that hold sessions of one ID are one and the same
    entry. *)
Theorem registerBDV_at_most_one cb id st :
  (is_Some (Clients.BDVs_ st !! id) ->
   Clients.registerBDV cb id st = (inl Clients.DuplicateSession, st)) /\
  (forall id' bdv,
     Clients.BDVs_ st !! id' = Some bdv ->
     Clients.BDVs_ (snd (Clients.registerBDV cb id st)) !! id' = Some bdv) /\
  (forall events id1 id2 bdv1 bdv2,
     Clients.BDVs_ (Clients.run relevant events Clients.new) !! id1 = Some bdv1 ->
     Clients.BDVs_ (Clients.run relevant events Clients.new) !! id2 = Some bdv2 ->
     BDV_Server_Object.bdvID_ bdv1 = BDV_Server_Object.bdvID_ bdv2 ->
     id1 = id2 /\ bdv1 = bdv2).
Proof.
  split; [| split].
  - intros [bdv Hl]. unfold Clients.registerBDV. rewrite Hl. reflexivity.
  - intros id' bdv Hl. unfold Clients.registerBDV.
    destruct (Clients.BDVs_ st !! id) as [old|] eqn:Hid; [exact Hl |].
    simpl. rewrite lookup_insert_ne; [exact Hl |].
    intros ->. rewrite Hid in Hl. discriminate.
  - intros events id1 id2 bdv1 bdv2 H1 H2 Hsame.
    assert (Hk : Clients.keyed_by_id
      (Clients.BDVs_ (Clients.run relevant events (@Clients.new C N)))).
    { apply run_keyed. intros i b Hl. simpl in Hl.
      rewrite lookup_empty in Hl. discriminate. }
    pose proof (Hk _ _ H1) as E1. pose proof (Hk _ _ H2) as E2.
    assert (id1 = id2) as <- by congruence.
    split; [reflexivity | congruence].
Qed.

(** Once the run flag is cleared and the three queues are terminated, a
    thread is past its loop after one turn, wherever it stood: at the head
    of the loop it sees the flag, inside a pop it is woken by the
    termination. *)
Lemma run_to_exit_stopped fuel th st :
  Clients.run_ st = false ->
  BlockingStack.terminated (Clients.gcCommands_ st) = true ->
  BlockingStack.terminated (Clients.outerBDVNotifStack_ st) = true ->
  BlockingStack.terminated (Clients.innerBDVNotifStack_ st) = true ->
  exists th',
    Clients.run_to_exit relevant (S fuel) th st = (Returned, th', st) /\
    Clients.stands th' = Clients.Finished /\
    Clients.body th' = Clients.body th.
Proof.
  intros Hrun Hgc Hout Hin. destruct th as [l [| |]].
  - exists (Clients.BuildThread l Clients.Finished).
    split; [| split; reflexivity].
    cbn [Clients.run_to_exit Clients.stands].
    unfold Clients.thread_turn. cbn [Clients.stands Clients.body].
    destruct l; unfold Clients.loop_turn, Clients.garbageCollectorThread_turn,
      Clients.bdvMaintenanceLoop_turn, Clients.bdvMaintenanceThread_turn;
      rewrite Hrun; cbn [negb Clients.after Clients.stands];
      destruct fuel; reflexivity.
  - exists (Clients.BuildThread l Clients.Finished).
    split; [| split; reflexivity].
    cbn [Clients.run_to_exit Clients.stands].
    unfold Clients.thread_turn. cbn [Clients.stands Clients.body].
    destruct l; unfold Clients.loop_pop, Clients.garbageCollectorThread_pop,
      Clients.bdvMaintenanceLoop_pop, Clients.bdvMaintenanceThread_pop,
      BlockingStack.pop_front;
      rewrite ?Hgc, ?Hout, ?Hin; cbn [Clients.after Clients.stands];
      destruct fuel; reflexivity.
  - exists (Clients.BuildThread l Clients.Finished).
    split; [| split; reflexivity]. reflexivity.
Qed.

Lemma join_all_stopped ths st :
  Clients.run_ st = false ->
  BlockingStack.terminated (Clients.gcCommands_ st) = true ->
  BlockingStack.terminated (Clients.outerBDVNotifStack_ st) = true ->
  BlockingStack.terminated (Clients.innerBDVNotifStack_ st) = true ->
  exists ths',
    Clients.join_all relevant ths st = (Returned, ths', st) /\
    Forall (fun th => Clients.stands th = Clients.Finished) ths' /\
    Clients.body <$> ths' = Clients.body <$> ths.
Proof.
  intros Hrun Hgc Hout Hin.
  induction ths as [|th ths (ths' & Hjoin & Hall & Hbody)].
  { exists []. split_and!; [reflexivity | constructor | reflexivity]. }
  cbn [Clients.join_all]. unfold Clients.enough_fuel.
  destruct (run_to_exit_stopped
              (S (length (BlockingStack.data (Clients.gcCommands_ st))
                  + length (BlockingStack.data (Clients.outerBDVNotifStack_ st))
                  + length (BlockingStack.data (Clients.innerBDVNotifStack_ st))))
              th st Hrun Hgc Hout Hin)
    as (th' & -> & Hth' & Hb).
  rewrite Hjoin. exists (th' :: ths'). split_and!.
  - reflexivity.
  - constructor; assumption.
  - rewrite !fmap_cons, Hbody, Hb. reflexivity.
Qed.

(** The shutdown of a [LongPoll] always comes back once the poll in
    progress, if there is one, has been woken: the mutex is free again and
    the queue is terminated. *)
Lemma shutdown_awaited_returns (lp : LongPoll.t N) :
  exists lp',
    LongPoll.shutdown_awaited lp = (Returned, lp') /\
    LongPoll.mu_ lp' = false /\
    TimedStack.terminated (LongPoll.notificationStack_ lp') = true /\
    (LongPoll.mu_ lp = false -> lp' = snd (LongPoll.shutdown lp)).
Proof.
  unfold LongPoll.shutdown_awaited. destruct (LongPoll.mu_ lp) eqn:Hmu.
  - rewrite (shutdown_owned lp Hmu).
    unfold LongPoll.respond_wake, TimedStack.pop_all. simpl.
    eexists. split_and!; [reflexivity | reflexivity | reflexivity |].
    intros Hfree. discriminate Hfree.
  - rewrite (shutdown_free lp Hmu). eexists.
    split_and!; [reflexivity | exact Hmu | reflexivity | reflexivity].
Qed.

(** A teardown comes back with the worker joined and the channel shut
    down. *)
Lemma haltThreads_returns bdv :
  exists bdv',
    BDV_Server_Object.haltThreads bdv = (Returned, bdv') /\
    BDV_Server_Object.initT_ bdv' <> BDV_Server_Object.Running /\
    BDV_Server_Object.bdvID_ bdv' = BDV_Server_Object.bdvID_ bdv /\
    BDV_Server_Object.cb_ bdv'
      = (fun cb => snd (Callback.shutdown_awaited cb)) <$> BDV_Server_Object.cb_ bdv /\
    (forall lp, BDV_Server_Object.cb_ bdv = Some (Callback.OfLongPoll lp) ->
       exists lp',
         BDV_Server_Object.cb_ bdv' = Some (Callback.OfLongPoll lp') /\
         LongPoll.mu_ lp' = false /\
         TimedStack.terminated (LongPoll.notificationStack_ lp') = true /\
         (LongPoll.mu_ lp = false -> lp' = snd (LongPoll.shutdown lp))) /\
    (forall ws, BDV_Server_Object.cb_ bdv = Some (Callback.OfWS ws) ->
       BDV_Server_Object.cb_ bdv' = Some (Callback.OfWS ws)).
Proof.
  unfold BDV_Server_Object.haltThreads.
  set (s1 := match BDV_Server_Object.initT_ bdv with
             | BDV_Server_Object.Running =>
                 BDV_Server_Object.set_initT BDV_Server_Object.Joined bdv
             | _ => bdv
             end).
  assert (Hs1 : BDV_Server_Object.initT_ s1 <> BDV_Server_Object.Running /\
                BDV_Server_Object.bdvID_ s1 = BDV_Server_Object.bdvID_ bdv /\
                BDV_Server_Object.cb_ s1 = BDV_Server_Object.cb_ bdv).
  { unfold s1. destruct (BDV_Server_Object.initT_ bdv) eqn:E; simpl;
      rewrite ?E; split_and!; try reflexivity; discriminate. }
  destruct Hs1 as (Hth & Hid & Hcb). clearbody s1. rewrite Hcb.
  destruct (BDV_Server_Object.cb_ bdv) as [[lp|ws]|]; simpl.
  - destruct (shutdown_awaited_returns lp) as (lp' & Hs & Hmu & Hterm & Hfree).
    rewrite Hs. eexists. split; [reflexivity |]. simpl.
    split_and!; try assumption; try reflexivity.
    + intros lp0 [= <-]. exists lp'. split_and!; try assumption. reflexivity.
    + intros ws [=].
  - eexists. split; [reflexivity |]. simpl.
    split_and!; try assumption; try reflexivity.
    + intros lp [=].
    + intros ws0 [= <-]. reflexivity.
  - eexists. split; [reflexivity |]. simpl.
    split_and!; try assumption; try reflexivity.
    + intros lp [=].
    + intros ws [=].
Qed.

Lemma unregisterBDV_returned id st st' :
  Clients.unregisterBDV id st = (Returned, st') ->
  Clients.BDVs_ st' = delete id (Clients.BDVs_ st) /\
  Clients.controlThreads_ st' = Clients.controlThreads_ st /\
  Clients.run_ st' = Clients.run_ st /\
  Clients.gcCommands_ st' = Clients.gcCommands_ st /\
  Clients.pipeline st' = Clients.pipeline st /\
  Clients.shutdownCallback_runs st' = Clients.shutdownCallback_runs st /\
  (forall bdv, bdv ∈ Clients.destroyed st -> bdv ∈ Clients.destroyed st') /\
  (forall bdv, Clients.BDVs_ st !! id = Some bdv ->
     exists bdv', BDV_Server_Object.haltThreads bdv = (Returned, bdv') /\
                  bdv' ∈ Clients.destroyed st').
Proof.
  unfold Clients.unregisterBDV.
  destruct (Clients.BDVs_ st !! id) as [bdv|] eqn:Hl.
  - destruct (BDV_Server_Object.haltThreads bdv) as [[|] bdv'] eqn:Hhalt;
      [| discriminate].
    intros [= <-]. simpl. split_and!; try reflexivity.
    + intros b Hb. apply elem_of_app. left. exact Hb.
    + intros b [= <-]. exists bdv'. split; [exact Hhalt |].
      apply elem_of_app. right. apply list_elem_of_singleton. reflexivity.
  - intros [= <-]. rewrite (delete_id _ _ Hl). split_and!; try done.
Qed.

Lemma unregister_each_returned ids st st' :
  Clients.unregister_each ids st = (Returned, st') ->
  (forall id, Clients.BDVs_ st' !! id
              = if decide (id ∈ ids) then None else Clients.BDVs_ st !! id) /\
  Clients.controlThreads_ st' = Clients.controlThreads_ st /\
  Clients.run_ st' = Clients.run_ st /\
  Clients.gcCommands_ st' = Clients.gcCommands_ st /\
  Clients.pipeline st' = Clients.pipeline st /\
  Clients.shutdownCallback_runs st' = Clients.shutdownCallback_runs st /\
  (forall bdv, bdv ∈ Clients.destroyed st -> bdv ∈ Clients.destroyed st') /\
  (forall id bdv, id ∈ ids -> Clients.BDVs_ st !! id = Some bdv ->
     exists bdv', BDV_Server_Object.haltThreads bdv = (Returned, bdv') /\
                  bdv' ∈ Clients.destroyed st').
Proof.
  revert st. induction ids as [|i ids IH]; intros st; simpl.
  { intros [= <-]. split_and!; try done.
    intros id bdv Hin. inversion Hin. }
  destruct (Clients.unregisterBDV i st) as [[|] st1] eqn:Hu; [| discriminate].
  intros Hrest.
  apply unregisterBDV_returned
    in Hu as (Hb1 & Ht1 & Hr1 & Hg1 & Hp1 & Hc1 & Hd1 & Hh1).
  apply IH in Hrest as (Hb & Ht & Hr & Hg & Hp & Hc & Hd & Hh).
  split_and!; try congruence.
  - intros id. rewrite Hb, Hb1.
    destruct (decide (id ∈ ids)) as [Hin|Hnin].
    + rewrite decide_True by (apply elem_of_cons; auto). reflexivity.
    + destruct (decide (id = i)) as [->|Hne].
      * rewrite decide_True by (apply elem_of_cons; auto).
        apply lookup_delete_eq.
      * rewrite decide_False by (rewrite elem_of_cons; tauto).
        apply lookup_delete_ne. congruence.
  - auto.
  - intros id bdv Hin Hl.
    destruct (decide (id = i)) as [->|Hne].
    + destruct (Hh1 bdv Hl) as (bdv' & Hhalt & Hin').
      exists bdv'. split; [exact Hhalt | apply Hd, Hin'].
    + apply elem_of_cons in Hin as [? | Hin]; [contradiction |].
      apply (Hh id bdv Hin). rewrite Hb1.
      rewrite lookup_delete_ne by congruence. exact Hl.
Qed.

Lemma unregister_each_returns ids st :
  exists st', Clients.unregister_each ids st = (Returned, st').
Proof.
  revert st. induction ids as [|i ids IH]; intros st; simpl; [eauto |].
  assert (Hu : exists st1, Clients.unregisterBDV i st = (Returned, st1)).
  { unfold Clients.unregisterBDV.
    destruct (Clients.BDVs_ st !! i) as [bdv|] eqn:Hl; [| eauto].
    destruct (haltThreads_returns bdv) as (bdv' & -> & _). eauto. }
  destruct Hu as (st1 & ->). apply IH.
Qed.

(** C7 (as amended): [Clients::shutdown] comes back, whatever the threads
    and the pollers are doing: a thread at the head of its loop sees the
    run flag down, a thread that waits inside a pop is woken by the
    termination of its queue, and a poll in progress on a channel is woken
    by the termination of the channel's queue.  When it has come back
    every thread of [controlThreads_] is past its loop, the run flag is
    down and the three queues are terminated, no session is left in the
    registry, every session that was left has been torn down with its
    worker joined and its channel shut down, and the shutdown hook has been
    called once.  A [LongPoll] channel is left terminated with its mutex
    free, so that every poll on it answers [TerminatedResponse]; a
    [WS_Callback], whose [shutdown] is empty, is left as it was and still
    reports valid. *)
Theorem shutdown_sequence st :
  exists st',
    Clients.shutdown relevant st = (Returned, st') /\
    Forall (fun th => Clients.stands th = Clients.Finished)
      (Clients.controlThreads_ st') /\
    Clients.body <$> Clients.controlThreads_ st'
      = Clients.body <$> Clients.controlThreads_ st /\
    Clients.run_ st' = false /\
    BlockingStack.terminated (Clients.gcCommands_ st') = true /\
    BlockingStack.terminated (Clients.outerBDVNotifStack_ st') = true /\
    BlockingStack.terminated (Clients.innerBDVNotifStack_ st') = true /\
    Clients.BDVs_ st' = ∅ /\
    (forall id bdv,
       Clients.BDVs_ st !! id = Some bdv ->
       exists bdv',
         bdv' ∈ Clients.destroyed st' /\
         BDV_Server_Object.haltThreads bdv = (Returned, bdv') /\
         BDV_Server_Object.initT_ bdv' <> BDV_Server_Object.Running /\
         (forall lp,
            BDV_Server_Object.cb_ bdv = Some (Callback.OfLongPoll lp) ->
            exists lp',
              BDV_Server_Object.cb_ bdv' = Some (Callback.OfLongPoll lp') /\
              LongPoll.mu_ lp' = false /\
              TimedStack.terminated (LongPoll.notificationStack_ lp') = true /\
              (LongPoll.mu_ lp = false -> lp' = snd (LongPoll.shutdown lp)) /\
              forall elapsed, exists lp'',
                LongPoll.respond elapsed lp'
                = Some (LongPoll.TerminatedResponse, lp'')) /\
         (forall ws,
            BDV_Server_Object.cb_ bdv = Some (Callback.OfWS ws) ->
            BDV_Server_Object.cb_ bdv' = Some (Callback.OfWS ws) /\
            Callback.isValid (Callback.OfWS ws : Callback.t N)
            = (true, Callback.OfWS ws))) /\
    Clients.shutdownCallback_runs st' = S (Clients.shutdownCallback_runs st).
Proof.
  unfold Clients.shutdown.
  set (st4 := Clients.set_inner _ _).
  destruct (join_all_stopped (Clients.controlThreads_ st4) st4
              eq_refl eq_refl eq_refl eq_refl)
    as (ths' & -> & Hexited & Hbody).
  set (st6 := Clients.set_controlThreads ths' st4).
  assert (Hbdvs : Clients.BDVs_ st6 = Clients.BDVs_ st) by reflexivity.
  unfold Clients.unregisterAllBDVs.
  destruct (unregister_each_returns
              (fst <$> map_to_list (Clients.BDVs_ st6)) st6) as (st7 & Hu).
  rewrite Hu. eexists. split; [reflexivity |].
  apply unregister_each_returned
    in Hu as (Hb & Ht & Hr & Hg & Hp & Hc & Hd & Hh).
  injection Hp as Hacc Hout Hin Hdel.
  simpl. rewrite Ht, Hr, Hg, Hout, Hin, Hc. split_and!; try done.
  - apply map_empty. intros id. rewrite Hb.
    destruct (decide _) as [_|Hnin]; [reflexivity |].
    destruct (Clients.BDVs_ st6 !! id) as [bdv|] eqn:Hl; [| reflexivity].
    exfalso. apply Hnin.
    apply (list_elem_of_fmap_2 fst _ (id, bdv)), elem_of_map_to_list, Hl.
  - intros id bdv Hl.
    destruct (Hh id bdv) as (bdv' & Hhalt & Hmem).
    { apply (list_elem_of_fmap_2 fst _ (id, bdv)), elem_of_map_to_list.
      rewrite Hbdvs. exact Hl. }
    { rewrite Hbdvs. exact Hl. }
    destruct (haltThreads_returns bdv)
      as (bdv0 & Hhalt0 & Hth & _ & _ & Hlp & Hws).
    rewrite Hhalt in Hhalt0. injection Hhalt0 as <-.
    exists bdv'. split_and!; try assumption.
    + intros lp Hcb.
      destruct (Hlp lp Hcb) as (lp' & Hcb' & Hmu & Hterm & Hfree).
      exists lp'. split_and!; try assumption.
      intros elapsed. eexists. rewrite (respond_free elapsed lp' Hmu).
      unfold TimedStack.pop_all. rewrite Hterm. reflexivity.
    + intros ws Hcb. split; [exact (Hws ws Hcb) | reflexivity].
Qed.

End Registry.



Lemma registerBDV_at_most_one_witness :
  let st : Clients.t unit string :=
    Clients.run Clients.names_watched
      [Clients.RegisterBDV (Callback.OfWS (WS_Callback.Build 7)) "A"] Clients.new in
  Clients.registerBDV (Callback.OfLongPoll (LongPoll.new (fun _ => 1%Z))) "A" st
  = (inl Clients.DuplicateSession, st).
Proof.
  intros st.
  destruct (registerBDV_at_most_one Clients.names_watched
              (Callback.OfLongPoll (LongPoll.new (fun _ => 1%Z))) "A" st)
    as (Hdup & _ & _).
  apply Hdup. vm_compute. eexists. reflexivity.
Defined.

(** C7 (as stated) fails for a session on a [WS_Callback]: after
    [Clients::shutdown] has come back the session is out of the registry and
    torn down, but its channel is what it was before and still reports
    valid; nothing of it reports terminated. *)
Lemma push_channel_not_terminated :
  let ws := WS_Callback.Build 7 in
  let st : Clients.t unit string :=
    Clients.run Clients.names_watched
      [Clients.RegisterBDV (Callback.OfWS ws) "B"] Clients.new in
  exists st' bdv',
    Clients.shutdown Clients.names_watched st = (Returned, st') /\
    Clients.BDVs_ st' = ∅ /\
    Clients.destroyed st' = [bdv'] /\
    BDV_Server_Object.bdvID_ bdv' = "B" /\
    BDV_Server_Object.cb_ bdv' = Some (Callback.OfWS ws) /\
    Callback.shutdown (Callback.OfWS ws : Callback.t string)
    = (Returned, Callback.OfWS ws) /\
    Callback.isValid (Callback.OfWS ws : Callback.t string)
    = (true, Callback.OfWS ws).
Proof.
  do 2 eexists. split; [vm_compute; reflexivity |].
  split_and!; reflexivity.
Qed.

Lemma shutdown_sequence_witness :
  let polled : LongPoll.t string :=
    LongPoll.Build true 3 (TimedStack.Build ["w"] false) (fun _ => 1%Z) in
  let st : Clients.t unit string :=
    Clients.set_controlThreads
      [Clients.BuildThread Clients.GarbageCollectorThread Clients.InPop;
       Clients.BuildThread Clients.BdvMaintenanceLoop Clients.AtLoopHead;
       Clients.BuildThread Clients.BdvMaintenanceThread Clients.InPop]
      (Clients.run Clients.names_watched
         [Clients.RegisterBDV (Callback.OfLongPoll polled) "A";
          Clients.RegisterBDV (Callback.OfWS (WS_Callback.Build 7)) "B";
          Clients.Dispatch "w"]
         Clients.new) in
  exists st',
    Clients.shutdown Clients.names_watched st = (Returned, st') /\
    Clients.BDVs_ st' = ∅ /\
    Clients.shutdownCallback_runs st' = 1 /\
    Forall (fun th => Clients.stands th = Clients.Finished)
      (Clients.controlThreads_ st') /\
    exists bdv' lp',
      bdv' ∈ Clients.destroyed st' /\
      BDV_Server_Object.cb_ bdv' = Some (Callback.OfLongPoll lp') /\
      LongPoll.mu_ lp' = false /\
      TimedStack.terminated (LongPoll.notificationStack_ lp') = true.
Proof.
  intros polled st.
  destruct (shutdown_sequence Clients.names_watched st)
    as (st' & Hret & Hth & _ & _ & _ & _ & _ & Hempty & Hsessions & Hruns).
  exists st'. split_and!; try assumption.
  destruct (Hsessions "A" (BDV_Server_Object.new "A" (Callback.OfLongPoll polled)))
    as (bdv' & Hmem & _ & _ & Hlp & _).
  { vm_compute. reflexivity. }
  destruct (Hlp polled eq_refl) as (lp' & Hcb & Hmu & Hterm & _).
  exists bdv', lp'. split_and!; assumption.
Defined.

(** ** The scenarios of the spec, run on the model *)

(** A session that watches "w" polls after a refresh for "w" has been
    dispatched and handed over: the poll returns that one notification and
    the expiry counter is 0 afterwards. *)
Example poll_returns_the_notification :
  let st : Clients.t unit string :=
    Clients.run Clients.names_watched
      [Clients.RegisterBDV (Callback.OfLongPoll (LongPoll.new (fun _ => 1%Z))) "A";
       Clients.RegisterWallet "A" TypeWallet "w" tt; Clients.Init "A";
       Clients.Collect; Clients.Collect;
       Clients.Dispatch "w"; Clients.FanOut; Clients.Deliver]
      Clients.new in
  exists bdv lp,
    Clients.get "A" st = Some bdv /\
    BDV_Server_Object.cb_ bdv = Some (Callback.OfLongPoll lp) /\
    LongPoll.count_ lp = 2%Z /\
    exists lp',
      LongPoll.respond false lp = Some (LongPoll.Notifications ["w"], lp') /\
      LongPoll.count_ lp' = 0%Z.
Proof.
  do 2 eexists. split; [vm_compute; reflexivity |].
  split; [reflexivity |]. split; [reflexivity |].
  eexists. split; reflexivity.
Qed.

(** A session on a [LongPoll] channel that never polls is still registered
    after four collections and gone after the fifth. *)
Example collected_at_the_fifth :
  let registered : Clients.t unit string :=
    Clients.run Clients.names_watched
      [Clients.RegisterBDV (Callback.OfLongPoll (LongPoll.new (fun _ => 1%Z))) "B"]
      Clients.new in
  let after n :=
    Clients.run Clients.names_watched (replicate n Clients.Collect) registered in
  is_Some (Clients.get "B" (after 4)) /\
  Clients.get "B" (after 5) = None /\
  length (Clients.destroyed (after 5)) = 1.
Proof.
  split; [| split].
  - vm_compute. eexists. reflexivity.
  - vm_compute. reflexivity.
  - vm_compute. reflexivity.
Qed.

(** ** More about the channels of the header *)

Section HeaderChannels.
Context {M : Type}.
Implicit Types (lp : LongPoll.t M) (cb : Callback.t M).

(** The answer of a liveness check depends on [mu_] and [count_] only. *)
Lemma isValid_answer_eq lp lp' :
  LongPoll.mu_ lp' = LongPoll.mu_ lp ->
  LongPoll.count_ lp' = LongPoll.count_ lp ->
  fst (LongPoll.isValid lp') = fst (LongPoll.isValid lp).
Proof.
  intros Hmu Hcount. destruct (LongPoll.mu_ lp) eqn:Hlp.
  - rewrite (isValid_during_respond_aux lp Hlp).
    rewrite (isValid_during_respond_aux lp' Hmu). reflexivity.
  - rewrite (isValid_free lp Hlp), (isValid_free lp' Hmu), Hcount. reflexivity.
Qed.

(** X1: [callback] touches the queue and nothing else, and takes no mutex:
    it changes neither the answer of the next liveness check nor the
    counter, and it commutes with [isValid] and with [resetCounter]. *)
Theorem callback_independent_of_liveness command lp :
  fst (LongPoll.isValid (LongPoll.callback command lp))
    = fst (LongPoll.isValid lp) /\
  snd (LongPoll.isValid (LongPoll.callback command lp))
    = LongPoll.callback command (snd (LongPoll.isValid lp)) /\
  LongPoll.resetCounter (LongPoll.callback command lp)
    = LongPoll.callback command (LongPoll.resetCounter lp) /\
  LongPoll.count_ (LongPoll.callback command lp) = LongPoll.count_ lp /\
  LongPoll.mu_ (LongPoll.callback command lp) = LongPoll.mu_ lp.
Proof.
  split_and!; try reflexivity.
  - apply isValid_answer_eq; reflexivity.
  - destruct (LongPoll.mu_ lp) eqn:Hmu.
    + rewrite (isValid_during_respond_aux lp Hmu).
      rewrite isValid_during_respond_aux by exact Hmu. reflexivity.
    + rewrite (isValid_free_state lp Hmu).
      rewrite isValid_free_state by exact Hmu. reflexivity.
Qed.

Lemma run_counter_exact calls lp :
  Forall LongPoll.keeps_counter calls ->
  LongPoll.mu_ lp = false ->
  (0 <= LongPoll.count_ lp)%Z ->
  (LongPoll.count_ lp + Z.of_nat (LongPoll.count_checks calls)
   < unsigned_modulus)%Z ->
  LongPoll.count_ (LongPoll.run calls lp)
  = (LongPoll.count_ lp + Z.of_nat (LongPoll.count_checks calls))%Z.
Proof.
  revert lp. induction calls as [|c calls IH]; intros lp Hall Hfree H0 Hlt.
  { simpl. lia. }
  apply Forall_cons in Hall as [Hc Hall].
  change (LongPoll.run (c :: calls) lp)
    with (LongPoll.run calls (LongPoll.exec lp c)).
  pose proof (exec_mu lp c Hfree) as Hfree'.
  destruct c; simpl in Hc; try contradiction.
  - change (LongPoll.count_checks (LongPoll.CallCallback command :: calls))
      with (LongPoll.count_checks calls) in *.
    rewrite (IH _ Hall Hfree'); simpl; [reflexivity | exact H0 | exact Hlt].
  - change (LongPoll.count_checks (LongPoll.CallIsValid :: calls))
      with (S (LongPoll.count_checks calls)) in *.
    rewrite Nat2Z.inj_succ in Hlt |- *.
    assert (Hc1 : LongPoll.count_ (LongPoll.exec lp LongPoll.CallIsValid)
                  = (LongPoll.count_ lp + 1)%Z).
    { simpl. rewrite (isValid_free_state lp Hfree). simpl.
      apply wrap_unsigned_small. lia. }
    rewrite (IH _ Hall Hfree'); rewrite Hc1; lia.
  - change (LongPoll.count_checks (LongPoll.CallShutdown :: calls))
      with (LongPoll.count_checks calls) in *.
    assert (Hc1 : LongPoll.count_ (LongPoll.exec lp LongPoll.CallShutdown)
                  = LongPoll.count_ lp).
    { simpl. rewrite (shutdown_free lp Hfree). reflexivity. }
    rewrite (IH _ Hall Hfree'); rewrite Hc1; lia.
Qed.

(** X2: on a channel whose mutex is free, as long as no reset and no poll
    comes in between and the counter does not wrap, the answer of a
    liveness check is settled by the counter at the start and the number of
    checks made since: it is valid exactly when the counter, with those
    checks and this one added, is below 5.  Notifications delivered and
    shutdowns made in between change nothing. *)
Theorem expiry_schedule calls lp :
  Forall LongPoll.keeps_counter calls ->
  LongPoll.mu_ lp = false ->
  (0 <= LongPoll.count_ lp)%Z ->
  (LongPoll.count_ lp + Z.of_nat (LongPoll.count_checks calls) + 1
   < unsigned_modulus)%Z ->
  fst (LongPoll.isValid (LongPoll.run calls lp))
  = bool_decide
      (LongPoll.count_ lp + Z.of_nat (LongPoll.count_checks calls) + 1
       < CALLBACK_EXPIRE_COUNT)%Z /\
  LongPoll.count_ (snd (LongPoll.isValid (LongPoll.run calls lp)))
  = (LongPoll.count_ lp + Z.of_nat (LongPoll.count_checks calls) + 1)%Z.
Proof.
  intros Hall Hfree H0 Hlt.
  rewrite (isValid_free _ (run_mu calls lp Hfree)). simpl.
  rewrite (run_counter_exact calls lp Hall Hfree H0) by lia.
  rewrite wrap_unsigned_small by lia. split; [| reflexivity].
  destruct (Z.leb_spec CALLBACK_EXPIRE_COUNT
              (LongPoll.count_ lp + Z.of_nat (LongPoll.count_checks calls) + 1));
    simpl; symmetry.
  - apply bool_decide_eq_false. lia.
  - apply bool_decide_eq_true. lia.
Qed.

(** X3: for a counter in the range of [unsigned], a liveness check reports
    the channel valid exactly when [mu_] is owned, or the counter is below
    4, or the counter is at its largest value, from which the increment
    wraps to 0. *)
Theorem isValid_answer lp :
  (0 <= LongPoll.count_ lp < unsigned_modulus)%Z ->
  fst (LongPoll.isValid lp) = true <->
  LongPoll.mu_ lp = true \/
  (LongPoll.count_ lp < CALLBACK_EXPIRE_COUNT - 1)%Z \/
  LongPoll.count_ lp = (unsigned_modulus - 1)%Z.
Proof.
  intros Hrange. destruct (LongPoll.mu_ lp) eqn:Hmu.
  { rewrite (isValid_during_respond_aux lp Hmu). simpl. tauto. }
  rewrite (isValid_free lp Hmu). simpl. rewrite negb_true_iff, Z.leb_gt.
  unfold CALLBACK_EXPIRE_COUNT.
  destruct (decide (LongPoll.count_ lp = (unsigned_modulus - 1)%Z)) as [Hmax|Hne].
  - rewrite Hmax.
    replace (unsigned_modulus - 1 + 1)%Z with unsigned_modulus by lia.
    unfold wrap_unsigned. rewrite Z_mod_same_full. split; [auto | lia].
  - rewrite wrap_unsigned_small by lia. split.
    + intros H. right. left. lia.
    + intros [H | [H | H]]; [discriminate | lia | contradiction].
Qed.

Lemma exec_mu_same lp c :
  LongPoll.in_header c ->
  LongPoll.mu_ (LongPoll.exec lp c) = LongPoll.mu_ lp.
Proof.
  intros Hc. destruct c; simpl in *; try contradiction; try reflexivity.
  - apply isValid_mu.
  - destruct (LongPoll.mu_ lp) eqn:Hmu.
    + rewrite (shutdown_owned lp Hmu). exact Hmu.
    + rewrite (shutdown_free lp Hmu). exact Hmu.
Qed.

(** X5: no call of the header leaves [mu_] owned behind it: after any
    sequence of [callback], [isValid], [resetCounter] and [shutdown] the
    mutex is as it was before, so that on a channel whose mutex was free
    [shutdown] comes back without waiting, with the queue terminated. *)
Theorem header_calls_release_mu calls lp :
  Forall LongPoll.in_header calls ->
  LongPoll.mu_ (LongPoll.run calls lp) = LongPoll.mu_ lp /\
  (LongPoll.mu_ lp = false ->
   LongPoll.shutdown (LongPoll.run calls lp)
   = (Returned, LongPoll.signal_terminate (LongPoll.run calls lp))).
Proof.
  intros Hall.
  assert (Hmu : LongPoll.mu_ (LongPoll.run calls lp) = LongPoll.mu_ lp).
  { revert lp. induction Hall as [|c calls Hc Hall IH]; intros lp;
      [reflexivity |].
    change (LongPoll.run (c :: calls) lp)
      with (LongPoll.run calls (LongPoll.exec lp c)).
    rewrite IH. apply exec_mu_same, Hc. }
  split; [exact Hmu |].
  intros Hfree. apply shutdown_free. rewrite Hmu. exact Hfree.
Qed.

(** X6: [shutdown] does not expire a channel: for a [LongPoll] and for a
    [WS_Callback] alike the liveness check answers after [shutdown] what it
    would have answered before, and the expiry counter of a [LongPoll] is
    what it was. *)
Theorem shutdown_keeps_liveness_answer :
  (forall cb,
     fst (Callback.isValid (snd (Callback.shutdown cb)))
     = fst (Callback.isValid cb)) /\
  (forall lp,
     LongPoll.count_ (snd (LongPoll.shutdown lp)) = LongPoll.count_ lp /\
     LongPoll.mu_ (snd (LongPoll.shutdown lp)) = LongPoll.mu_ lp).
Proof.
  assert (Hlp : forall lp,
    LongPoll.count_ (snd (LongPoll.shutdown lp)) = LongPoll.count_ lp /\
    LongPoll.mu_ (snd (LongPoll.shutdown lp)) = LongPoll.mu_ lp).
  { intros lp. destruct (LongPoll.mu_ lp) eqn:Hmu.
    - rewrite (shutdown_owned lp Hmu). split; [reflexivity | exact Hmu].
    - rewrite (shutdown_free lp Hmu). split; [reflexivity | exact Hmu]. }
  split; [| exact Hlp].
  intros [lp|ws]; simpl; [| reflexivity].
  destruct (Hlp lp) as [Hcount Hmu].
  pose proof (isValid_answer_eq lp (snd (LongPoll.shutdown lp)) Hmu Hcount) as Heq.
  destruct (LongPoll.shutdown lp) as [c lp1]. simpl in *.
  destruct (LongPoll.isValid lp1) as [b1 lp1'].
  destruct (LongPoll.isValid lp) as [b lp']. exact Heq.
Qed.

(** X7: [BDV_Server_Object::resetCounter] always comes back; it leaves the
    session's worker, ID, buffer, readiness and watch-set alone; done twice
    it does what it does once; and right after it the liveness check of the
    session's channel, whichever it is and whether or not [mu_] is owned,
    reports the channel valid. *)
Theorem session_resetCounter_revives {C : Type} (s : BDV_Server_Object.t C M) :
  exists s',
    BDV_Server_Object.resetCounter s = Some s' /\
    BDV_Server_Object.resetCounter s' = Some s' /\
    BDV_Server_Object.initT_ s' = BDV_Server_Object.initT_ s /\
    BDV_Server_Object.bdvID_ s' = BDV_Server_Object.bdvID_ s /\
    BDV_Server_Object.wltRegMap_ s' = BDV_Server_Object.wltRegMap_ s /\
    BDV_Server_Object.isReady s' = BDV_Server_Object.isReady s /\
    BDV_Server_Object.wallets s' = BDV_Server_Object.wallets s /\
    (forall cb', BDV_Server_Object.cb_ s' = Some cb' ->
       fst (Callback.isValid cb') = true) /\
    (forall lp, BDV_Server_Object.cb_ s = Some (Callback.OfLongPoll lp) ->
       BDV_Server_Object.cb_ s'
       = Some (Callback.OfLongPoll (LongPoll.set_count 0 lp))).
Proof.
  destruct s as [th [[lp|ws]|] id buf ready ws'];
    unfold BDV_Server_Object.resetCounter, BDV_Server_Object.deref; simpl.
  - eexists. split; [reflexivity |]. simpl. split_and!; try reflexivity.
    + intros cb' [= <-]. simpl.
      destruct lp as [[|] c q r]; reflexivity.
    + intros lp0 [= <-]. reflexivity.
  - eexists. split; [reflexivity |]. simpl. split_and!; try reflexivity.
    + intros cb' [= <-]. reflexivity.
    + intros lp0 [=].
  - eexists. split; [reflexivity |]. simpl. split_and!; try reflexivity.
    + intros cb' [=].
    + intros lp0 [=].
Qed.

(** X8: the section guarded by [mu_] holds one thread at most: in every
    state the threads can reach, while a liveness check is inside it
    [shutdown] does not own the mutex and has to wait before it can take
    it, and while [shutdown] owns the mutex no liveness check is inside;
    a check that starts then answers valid without touching the counter. *)
Theorem guarded_section_exclusive isReady n (st : Interleaving.t M) :
  Interleaving.reachable isReady n st ->
  Interleaving.owners st <= 1 /\
  (Interleaving.checker st = Interleaving.Inside ->
   Interleaving.closer st <> Interleaving.OwnsLock /\
   forall st', ~ Interleaving.step st Interleaving.ShutdownLock st') /\
  (Interleaving.closer st = Interleaving.OwnsLock ->
   Interleaving.checker st = Interleaving.Outside /\
   Interleaving.step st Interleaving.IsValidBusy st /\
   forall st', ~ Interleaving.step st Interleaving.IsValidEnter st').
Proof.
  intros Hreach.
  destruct (reachable_invariant isReady n st Hreach) as [Hown _].
  unfold Interleaving.owners in *.
  split; [destruct (LongPoll.mu_ (Interleaving.channel st)); lia |].
  split.
  - intros Hck. rewrite Hck in Hown. simpl in Hown.
    assert (Hmu : LongPoll.mu_ (Interleaving.channel st) = true).
    { destruct (LongPoll.mu_ (Interleaving.channel st)); [reflexivity | lia]. }
    split.
    + intros Hcl. rewrite Hcl, Hmu in Hown. lia.
    + intros st' Hstep. inversion Hstep; subst.
      match goal with
      | H : LongPoll.lock _ = Some _ |- _ => apply lock_inv in H as [Hfree _]
      end.
      congruence.
  - intros Hcl. rewrite Hcl in Hown.
    assert (Hmu : LongPoll.mu_ (Interleaving.channel st) = true).
    { destruct (LongPoll.mu_ (Interleaving.channel st)); [reflexivity | lia]. }
    rewrite Hmu in Hown.
    assert (Hck : Interleaving.checker st = Interleaving.Outside).
    { destruct (Interleaving.checker st); [reflexivity | simpl in Hown; lia]. }
    split; [exact Hck |]. split.
    + apply Interleaving.step_isValid_busy; [exact Hck |].
      unfold LongPoll.try_lock. rewrite Hmu. reflexivity.
    + intros st' Hstep. inversion Hstep; subst.
      match goal with
      | H : fst (LongPoll.try_lock _) = true |- _ =>
          unfold LongPoll.try_lock in H; rewrite Hmu in H; discriminate H
      end.
Qed.

End HeaderChannels.

Lemma expiry_schedule_witness :
  fst (LongPoll.isValid
         (LongPoll.run
            [LongPoll.CallIsValid; LongPoll.CallCallback tt; LongPoll.CallIsValid;
             LongPoll.CallShutdown; LongPoll.CallIsValid]
            (LongPoll.new (fun _ => 1%Z))))
  = true.
Proof.
  destruct (expiry_schedule
              [LongPoll.CallIsValid; LongPoll.CallCallback tt; LongPoll.CallIsValid;
               LongPoll.CallShutdown; LongPoll.CallIsValid]
              (@LongPoll.new unit (fun _ => 1%Z))) as [Hanswer _].
  - repeat constructor.
  - reflexivity.
  - vm_compute. discriminate.
  - vm_compute. reflexivity.
  - rewrite Hanswer. vm_compute. reflexivity.
Defined.

Lemma isValid_answer_witness :
  fst (LongPoll.isValid
         (LongPoll.Build false 4294967295 (@TimedStack.empty unit) (fun _ => 1%Z)))
  = true.
Proof.
  apply (isValid_answer
           (LongPoll.Build false 4294967295 (@TimedStack.empty unit) (fun _ => 1%Z))).
  - vm_compute. split; [discriminate | reflexivity].
  - right. right. vm_compute. reflexivity.
Defined.

Lemma header_calls_release_mu_witness :
  LongPoll.shutdown
    (LongPoll.run
       [LongPoll.CallIsValid; LongPoll.CallCallback tt; LongPoll.CallResetCounter]
       (LongPoll.new (fun _ => 1%Z)))
  = (Returned,
     LongPoll.signal_terminate
       (LongPoll.run
          [LongPoll.CallIsValid; LongPoll.CallCallback tt; LongPoll.CallResetCounter]
          (LongPoll.new (fun _ => 1%Z)))).
Proof.
  destruct (header_calls_release_mu
              [LongPoll.CallIsValid; LongPoll.CallCallback tt;
               LongPoll.CallResetCounter]
              (@LongPoll.new unit (fun _ => 1%Z))) as [_ Hshutdown].
  - repeat constructor.
  - apply Hshutdown. reflexivity.
Defined.

Lemma session_resetCounter_revives_witness :
  exists s' : BDV_Server_Object.t unit unit,
    BDV_Server_Object.resetCounter
      (BDV_Server_Object.new "A"
         (Callback.OfLongPoll
            (LongPoll.Build true 9 TimedStack.empty (fun _ => 1%Z))))
    = Some s' /\
    BDV_Server_Object.cb_ s'
    = Some (Callback.OfLongPoll
              (LongPoll.Build true 0 TimedStack.empty (fun _ => 1%Z))).
Proof.
  destruct (session_resetCounter_revives
              (BDV_Server_Object.new (C := unit) (M := unit) "A"
                 (Callback.OfLongPoll
                    (LongPoll.Build true 9 TimedStack.empty (fun _ => 1%Z)))))
    as (s' & Hreset & _ & _ & _ & _ & _ & _ & _ & Hlp).
  exists s'. split; [exact Hreset |].
  apply (Hlp (LongPoll.Build true 9 TimedStack.empty (fun _ => 1%Z))).
  reflexivity.
Defined.

Lemma guarded_section_exclusive_witness :
  let st : Interleaving.t unit :=
    Interleaving.Build
      (LongPoll.Build true 0 TimedStack.empty (fun _ => 1%Z))
      Interleaving.BeforeTerminate [Interleaving.Outside] Interleaving.Inside in
  Interleaving.closer st <> Interleaving.OwnsLock /\
  forall st', ~ Interleaving.step st Interleaving.ShutdownLock st'.
Proof.
  intros st.
  assert (Hreach : Interleaving.reachable (fun _ => 1%Z) 1 st).
  { eapply (Interleaving.reachable_step _ _ _ Interleaving.IsValidEnter).
    - apply Interleaving.reachable_initial.
    - apply (Interleaving.step_isValid_enter
               (Interleaving.initial (fun _ => 1%Z) 1)); reflexivity. }
  destruct (guarded_section_exclusive (fun _ => 1%Z) 1 st Hreach)
    as (_ & Hchecker & _).
  apply Hchecker. reflexivity.
Defined.
